(** * The HTTP boundary of the XPath platform (main.py)

    A shallow embedding of the four POST handlers of [main.py]:
    [generate_xpath], [analyze_html], [execute_tests] and
    [generate_test_scenarios], together with the fragment of Python they
    rely on (dictionaries, truth values, subscripts, [dict.get],
    [try]/[except]).

    The handlers talk to collaborators that live in other modules of the
    repository (the deterministic generator, the HTML parser, the agent, the
    test executor, the pydantic models).  Those are gathered in a record
    [Env]; every handler is a function of an [Env] and threads the list of
    collaborator calls it made, so that "the agent was (not) consulted" is a
    statement about that list. *)

From Stdlib Require Import ZArith String List Lia.
From stdpp Require Import base option list strings pretty.

(** ** Python values *)

Module Py.

(** JSON-like Python values.  A [float] is kept as its IEEE-754 binary64 bit
    pattern: the handlers never compute with one.  A [dict] is the list of
    its entries in insertion order (the order Python keeps and serialises);
    every dictionary this program touches has string keys. *)
#[warnings="-register-all"] Inductive pyval : Type :=
  | PNone
  | PBool (b : bool)
  | PInt (z : Z)
  | PFloat (bits : Z)
  | PStr (s : string)
  | PList (items : list pyval)
  | PDict (entries : list (string * pyval)).

(** Exceptions, all of them subclasses of [Exception]. *)
Inductive pyexn : Type :=
  | HTTPException (status_code : Z) (detail : string)
  | KeyError (key : string)
  | TypeError (operation : string)
  | AttributeError (attribute : string)
  | ValidationError
  | ImportError (module_name : string)
  | ExternalError (cls : string) (msg : string).

(** The outcome of evaluating an expression: a value or a raised exception. *)
Inductive result (A : Type) : Type :=
  | Ok (a : A)
  | Raise (e : pyexn).
Arguments Ok {A} a.
Arguments Raise {A} e.

#[global] Instance result_ret : MRet result := fun A a => Ok a.
#[global] Instance result_bind : MBind result := fun A B f r =>
  match r with
  | Ok a => f a
  | Raise e => Raise e
  end.

Definition is_Ok {A} (r : result A) : bool :=
  match r with Ok _ => true | Raise _ => false end.

(** [bool(v)]: the truth value Python gives to [v] in [if v] and [not v]. *)
Definition py_truthy (v : pyval) : bool :=
  match v with
  | PNone => false
  | PBool b => b
  | PInt z => negb (z =? 0)%Z
  | PFloat bits => negb (Z.land bits (2 ^ 63 - 1) =? 0)%Z
  | PStr s => negb (String.eqb s "")
  | PList items => match items with [] => false | _ :: _ => true end
  | PDict entries => match entries with [] => false | _ :: _ => true end
  end.

(** Lookup of a key among the entries of a dictionary. *)
Fixpoint dict_lookup (key : string) (entries : list (string * pyval))
  : option pyval :=
  match entries with
  | [] => None
  | (k, v) :: rest => if String.eqb k key then Some v else dict_lookup key rest
  end.

(** [d[key]]. *)
Definition py_subscript (d : pyval) (key : string) : result pyval :=
  match d with
  | PDict entries =>
      match dict_lookup key entries with
      | Some v => Ok v
      | None => Raise (KeyError key)
      end
  | _ => Raise (TypeError "subscript")
  end.

(** [d.get(key, default)]: the attribute [get] is looked up first, then the
    default is evaluated, then the key is looked up.  The default is only
    used when the key is absent. *)
Definition py_get (d : pyval) (key : string) (default : result pyval)
  : result pyval :=
  match d with
  | PDict entries =>
      dflt ← default;
      Ok (match dict_lookup key entries with
          | Some v => v
          | None => dflt
          end)
  | _ => Raise (AttributeError "get")
  end.

(** [for x in v]: the items the loop visits. *)
Definition py_iter (v : pyval) : result (list pyval) :=
  match v with
  | PList items => Ok items
  | PStr s => Ok (map (fun c => PStr (String c "")) (list_ascii_of_string s))
  | PDict entries => Ok (map (fun kv => PStr kv.1) entries)
  | _ => Raise (TypeError "iter")
  end.

(** [v in [s1, ..., sn]] for a list of string literals: [==] against each. *)
Definition py_in_strs (v : pyval) (candidates : list string) : bool :=
  match v with
  | PStr s => existsb (String.eqb s) candidates
  | _ => false
  end.

(** [needle in hay] for two strings: [needle] occurs in [hay]. *)
Fixpoint py_contains (needle hay : string) : bool :=
  if String.prefix needle hay then true
  else match hay with
       | EmptyString => false
       | String _ rest => py_contains needle rest
       end.

End Py.
Import Py.

(** ** Collaborators and calls *)

(** [XPathRequest] (models/request_models.py): the request body. *)
Record XPathRequest : Type := {
  html_content : string;
  target_description : string;
  element_type : option string;
  additional_context : option string
}.

(** Modelled from the spec: [XPathResponse] (models/request_models.py is not
    part of the sources) carries the serialised LocatorResult of section 6:
    locators, confidence, alternatives, reasoning and the success flag,
    under the keyword names [generate_xpath] passes to the constructor. *)
Record XPathResponse : Type := {
  xpath_locators : pyval;
  confidence_scores : pyval;
  alternative_locators : pyval;
  reasoning : pyval;
  success : pyval
}.

(** A call that leaves the handler. *)
Inductive event : Type :=
  | CallSimpleGenerator (html target : string) (etype : option string)
  | CallParseHtml (html : string)
  | CallAnalyzeHtml (html : string)
  | CallAgent (request : XPathRequest)
  | CallExecutor (test_cases : pyval).

Definition trace : Type := list event.

Definition Agent : Type := XPathRequest -> result pyval.

(** What the handlers import from the rest of the repository and from the
    interpreter.
    - [exn_str e] is [str(e)];
    - [py_repr v] is [repr(v)], used by [str] on values that are not strings;
    - [SimpleXPathGenerator] is the outcome of importing [simple_main] and
      constructing the generator: its [generate_xpath] method, or the
      exception raised on the way;
    - [XPathResponse_accepts] is pydantic's validation of the constructor's
      arguments;
    - [xpath_agent] is the module-level global set by [lifespan];
    - [html_interpretable], [build_tree] and [classify] make up [HTMLParser];
    - [SimpleTestExecutor] is the outcome of importing the executor: its
      constructor followed by [execute_test_suite], or the import error. *)
Record Env : Type := {
  exn_str : pyexn -> string;
  py_repr : pyval -> string;
  SimpleXPathGenerator :
    result (string -> string -> option string -> result pyval);
  XPathResponse_accepts : XPathResponse -> bool;
  xpath_agent : option Agent;
  html_interpretable : string -> bool;
  build_tree : string -> result pyval;
  classify : string -> result pyval;
  SimpleTestExecutor : result (pyval -> result pyval)
}.

(** The same environment with another value of the global [xpath_agent]. *)
Definition with_agent (W : Env) (a : option Agent) : Env :=
  {| exn_str := exn_str W;
     py_repr := py_repr W;
     SimpleXPathGenerator := SimpleXPathGenerator W;
     XPathResponse_accepts := XPathResponse_accepts W;
     xpath_agent := a;
     html_interpretable := html_interpretable W;
     build_tree := build_tree W;
     classify := classify W;
     SimpleTestExecutor := SimpleTestExecutor W |}.

(** [lifespan], run at start-up on the module's globals: [xpath_agent]
    becomes the agent when [XPathAgent()] returns; when it raises, the
    global is set to [None] if the message names the API key and is left as
    it was otherwise.  The module itself initialises the global to [None]. *)
Definition lifespan (W : Env) (XPathAgent_new : result Agent) : Env :=
  match XPathAgent_new with
  | Ok agent => with_agent W (Some agent)
  | Raise e =>
      if py_contains "OPENAI_API_KEY" (exn_str W e)
      then with_agent W None
      else W
  end.

(** ** Handlers as trace-threading computations *)

Definition M (A : Type) : Type := trace -> trace * result A.

#[global] Instance M_ret : MRet M := fun A a t => (t, Ok a).
#[global] Instance M_bind : MBind M := fun A B f m t =>
  match m t with
  | (t', Ok a) => f a t'
  | (t', Raise e) => (t', Raise e)
  end.

Definition raise {A} (e : pyexn) : M A := fun t => (t, Raise e).

(** A step that makes no call. *)
Definition lift {A} (r : result A) : M A := fun t => (t, r).

(** A call to a collaborator: recorded, then its outcome. *)
Definition call {A} (ev : event) (r : result A) : M A :=
  fun t => (t ++ [ev], r).

(** [try: body except Exception as e: handler(e)]. *)
Definition try_except {A} (body : M A) (handler : pyexn -> M A) : M A :=
  fun t =>
    match body t with
    | (t', Ok a) => (t', Ok a)
    | (t', Raise e) => handler e t'
    end.

(** [str(v)], as an f-string field [{v}] renders it. *)
Definition py_str (W : Env) (v : pyval) : string :=
  match v with
  | PStr s => s
  | PNone => "None"
  | PBool true => "True"
  | PBool false => "False"
  | PInt z => pretty z
  | _ => py_repr W v
  end.

(** Modelled from the spec: [HTMLParser] (utils/html_parser.py is not part
    of the sources).  Section 7, ParseFailure: an input that is not
    interpretable as HTML at all is reported to the caller as a failure,
    never as an empty analysis; here the report is an exception, which is
    what the handlers' [except] clauses turn into an error response. *)
Definition ParseFailure : pyexn :=
  ExternalError "ParseFailure" "input is not interpretable as HTML".

Definition parse_html (W : Env) (html : string) : result pyval :=
  if html_interpretable W html then build_tree W html else Raise ParseFailure.

Definition analyze_html_structure (W : Env) (html : string) : result pyval :=
  if html_interpretable W html then classify W html else Raise ParseFailure.

(** ** POST /generate-xpath *)

(** The body of the [try]: import and construct the generator, call it, and
    build the response from its result.  Keyword arguments are evaluated left
    to right, then the model validates them. *)
Definition new_XPathResponse (W : Env) (fields : XPathResponse)
  : result XPathResponse :=
  if XPathResponse_accepts W fields then Ok fields else Raise ValidationError.

Definition deterministic_response (W : Env) (result : pyval)
  : Py.result XPathResponse :=
  locators ← py_subscript result "xpath_locators";
  scores ← py_subscript result "confidence_scores";
  alternatives ← py_get result "alternative_locators" (Ok (PList []));
  why ← py_get result "reasoning" (Ok (PStr ""));
  flag ← py_get result "success" (Ok (PBool true));
  new_XPathResponse W
    {| xpath_locators := locators;
       confidence_scores := scores;
       alternative_locators := alternatives;
       reasoning := why;
       success := flag |}.

Definition deterministic_stage (W : Env) (request : XPathRequest)
  : M XPathResponse :=
  simple_generator ← lift (SimpleXPathGenerator W);
  result ← call (CallSimpleGenerator (html_content request)
                   (target_description request) (element_type request))
                (simple_generator (html_content request)
                   (target_description request) (element_type request));
  lift (deterministic_response W result).

(** The inner [try]: parse the page (the tree is not used), await the agent,
    and build a response whose success flag is the literal [True]. *)
Definition agent_response (W : Env) (result : pyval)
  : Py.result XPathResponse :=
  locators ← py_subscript result "xpath_locators";
  scores ← py_subscript result "confidence_scores";
  alternatives ← py_get result "alternative_locators" (Ok (PList []));
  why ← py_get result "reasoning" (Ok (PStr ""));
  new_XPathResponse W
    {| xpath_locators := locators;
       confidence_scores := scores;
       alternative_locators := alternatives;
       reasoning := why;
       success := PBool true |}.

Definition agent_stage (W : Env) (agent : Agent) (request : XPathRequest)
  : M XPathResponse :=
  parsed_html ← call (CallParseHtml (html_content request))
                     (parse_html W (html_content request));
  result ← call (CallAgent request) (agent request);
  lift (agent_response W result).

(** The body of [except Exception as e]. *)
Definition fallback (W : Env) (request : XPathRequest) (e : pyexn)
  : M XPathResponse :=
  match xpath_agent W with
  | Some agent =>
      try_except (agent_stage W agent request) (fun ai_error =>
        raise (HTTPException 500 ("Agent error: " +:+ exn_str W ai_error)))
  | None =>
      raise (HTTPException 500 ("XPath generation error: " +:+ exn_str W e))
  end.

Definition generate_xpath (W : Env) (request : XPathRequest)
  : M XPathResponse :=
  try_except (deterministic_stage W request) (fallback W request).

(** ** POST /analyze-html *)

Definition analyze_html (W : Env) (request : XPathRequest) : M pyval :=
  try_except
    (analysis ← call (CallAnalyzeHtml (html_content request))
                     (analyze_html_structure W (html_content request));
     mret (PDict [("success", PBool true); ("analysis", analysis)]))
    (fun e =>
       raise (HTTPException 500 ("HTML analysis error: " +:+ exn_str W e))).

(** ** POST /execute-tests *)

(** The body is annotated [dict]: the request is the entries of a JSON
    object. *)
Definition execute_tests (W : Env) (request : list (string * pyval))
  : M pyval :=
  try_except
    (executor ← lift (SimpleTestExecutor W);
     test_cases ← lift (py_get (PDict request) "test_cases" (Ok (PList [])));
     if negb (py_truthy test_cases)
     then raise (HTTPException 400 "test_cases required")
     else call (CallExecutor test_cases) (executor test_cases))
    (fun e =>
       raise (HTTPException 500 ("Test execution error: " +:+ exn_str W e))).

(** ** POST /generate-test-scenarios *)

Definition scenario_tags : list string := ["button"; "input"; "a"].

(** [element.get('text', element['tag'])] inside an f-string field. *)
Definition display (W : Env) (element : pyval) : result string :=
  shown ← py_get element "text" (py_subscript element "tag");
  Ok (py_str W shown).

(** The dictionary literal of the loop body; [scenarios] is the list built
    so far. *)
Definition make_scenario (W : Env) (scenarios : list pyval) (element : pyval)
  : result pyval :=
  in_name ← display W element;
  in_description ← display W element;
  in_locate ← display W element;
  in_interact ← display W element;
  in_expected ← display W element;
  ident ← py_get element "id" (Ok PNone);
  Ok (PDict
    [("id", PStr ("scenario_" +:+ pretty (length scenarios + 1)%nat));
     ("name", PStr ("Test " +:+ in_name +:+ " functionality"));
     ("description", PStr ("Verify " +:+ in_description +:+ " works correctly"));
     ("steps", PList
        [PStr "Navigate to the page";
         PStr ("Locate " +:+ in_locate +:+ " element");
         PStr ("Interact with " +:+ in_interact);
         PStr "Verify expected behavior"]);
     ("expected_result", PStr (in_expected +:+ " should work as expected"));
     ("priority", PStr (if py_truthy ident then "high" else "medium"))]).

(** The [for] loop over the interactive elements, appending to [scenarios]. *)
Fixpoint scenario_loop (W : Env) (elements : list pyval)
  (scenarios : list pyval) : result (list pyval) :=
  match elements with
  | [] => Ok scenarios
  | element :: rest =>
      tag ← py_subscript element "tag";
      if py_in_strs tag scenario_tags
      then scenario ← make_scenario W scenarios element;
           scenario_loop W rest (scenarios ++ [scenario])
      else scenario_loop W rest scenarios
  end.

(** The items [analysis.get('interactive_elements', [])] yields to the loop. *)
Definition interactive_elements (analysis : pyval) : result (list pyval) :=
  listed ← py_get analysis "interactive_elements" (Ok (PList []));
  py_iter listed.

(** The dictionary the handler returns. *)
Definition scenario_report (scenarios : list pyval) : pyval :=
  PDict [("success", PBool true);
         ("scenarios", PList scenarios);
         ("total_scenarios", PInt (Z.of_nat (length scenarios)))].

Definition generate_test_scenarios (W : Env) (request : XPathRequest)
  : M pyval :=
  try_except
    (analysis ← call (CallAnalyzeHtml (html_content request))
                     (analyze_html_structure W (html_content request));
     lift (elements ← interactive_elements analysis;
           scenarios ← scenario_loop W elements [];
           Ok (scenario_report scenarios)))
    (fun e =>
       raise (HTTPException 500
                ("Test scenario generation error: " +:+ exn_str W e))).

(** ** Vocabulary of the statements *)

(** The calls a handler makes and the outcome it has on a fresh request. *)
Definition calls {A} (m : M A) : trace := (m []).1.
Definition outcome {A} (m : M A) : result A := (m []).2.

Definition is_CallAgent (ev : event) : bool :=
  match ev with CallAgent _ => true | _ => false end.

Definition agent_invoked (t : trace) : bool := existsb is_CallAgent t.

(** What the deterministic generator does on a request, import included. *)
Definition generator_outcome (W : Env) (request : XPathRequest)
  : result pyval :=
  simple_generator ← SimpleXPathGenerator W;
  simple_generator (html_content request) (target_description request)
    (element_type request).

(** The calls and the outcome of the body of the [try]. *)
Definition generator_calls (W : Env) (request : XPathRequest) : trace :=
  match SimpleXPathGenerator W with
  | Ok _ => [CallSimpleGenerator (html_content request)
               (target_description request) (element_type request)]
  | Raise _ => []
  end.

Definition deterministic_outcome (W : Env) (request : XPathRequest)
  : result XPathResponse :=
  r ← generator_outcome W request;
  deterministic_response W r.

Definition reports_failure (r : result pyval) : Prop :=
  ∃ entries, r = Ok (PDict entries)
             ∧ dict_lookup "success" entries = Some (PBool false).

Definition raises {A} (r : result A) : Prop := ∃ e, r = Raise e.

(** The fallback rule in the words of section 6, read as an equivalence. *)
Definition fallback_on_failure_or_raise (W : Env) (request : XPathRequest)
  : Prop :=
  agent_invoked (calls (generate_xpath W request)) = true
  ↔ reports_failure (generator_outcome W request)
    ∨ raises (generator_outcome W request).

(** Modelled from the spec: the LocatorResult that [SimpleXPathGenerator]
    (simple_main.py is not part of the sources) hands to the boundary.
    Sections 3 and 6: a record with the locators and their confidence, and
    with alternatives, reasoning and success flag; the response it is
    serialised as is one the response model accepts. *)
Definition LocatorResult_response (r : pyval) : option XPathResponse :=
  match r with
  | PDict entries =>
      locators ← dict_lookup "xpath_locators" entries;
      scores ← dict_lookup "confidence_scores" entries;
      Some {| xpath_locators := locators;
              confidence_scores := scores;
              alternative_locators :=
                default (PList []) (dict_lookup "alternative_locators" entries);
              reasoning := default (PStr "") (dict_lookup "reasoning" entries);
              success := default (PBool true) (dict_lookup "success" entries) |}
  | _ => None
  end.

Definition is_LocatorResult (W : Env) (r : pyval) : bool :=
  match LocatorResult_response r with
  | Some response => XPathResponse_accepts W response
  | None => false
  end.

(** An empty primary locator: no locator string, or the empty one. *)
Definition empty_locator (v : pyval) : bool :=
  match v with
  | PList [] => true
  | PStr s => String.eqb s ""
  | _ => false
  end.

(** Modelled from the spec: the NoMatch outcome of section 7, a
    LocatorResult with [success = false] and an empty primary locator. *)
Definition is_NoMatch (W : Env) (r : pyval) : bool :=
  is_LocatorResult W r
  && match LocatorResult_response r with
     | Some response =>
         empty_locator (xpath_locators response)
         && match success response with PBool false => true | _ => false end
     | None => false
     end.

(** An element of the analysis as the classifier lists it: a dictionary with
    a [tag], whose [id], when listed, is the attribute's string or [None]. *)
Definition element_tag (element : pyval) : option pyval :=
  match element with
  | PDict entries => dict_lookup "tag" entries
  | _ => None
  end.

Definition has_tag (element : pyval) : bool :=
  match element_tag element with Some _ => true | None => false end.




(** The element's tag is one of button, input, a. *)
Definition yields_scenario (element : pyval) : bool :=
  match element_tag element with
  | Some (PStr tag) =>
      bool_decide (tag = "button" ∨ tag = "input" ∨ tag = "a")
  | _ => false
  end.

(** A field of an emitted scenario. *)
Definition field (name : string) (scenario : pyval) : option pyval :=
  match scenario with
  | PDict entries => dict_lookup name entries
  | _ => None
  end.

(** The element's display text as the analysis lists it. *)
Definition display_text (element : pyval) : option pyval := field "text" element.

(** ** A concrete deployment

    One environment on which the statements below are exercised: a
    generator that finds the submit button, reports NoMatch for the hint
    "nonexistent" and raises on an empty hint; a parser that rejects the
    empty page; an agent that answers every request. *)

Module Sample.

Definition exn_text (e : pyexn) : string :=
  match e with
  | HTTPException code detail => pretty code +:+ ": " +:+ detail
  | KeyError key => "'" +:+ key +:+ "'"
  | TypeError operation => operation
  | AttributeError attribute => attribute
  | ValidationError => "validation error"
  | ImportError module_name => "No module named '" +:+ module_name +:+ "'"
  | ExternalError _ msg => msg
  end.

Definition repr_text (v : pyval) : string := "<object>".

Definition found : pyval :=
  PDict [("xpath_locators", PList [PStr "//*[@id='submit-btn']"]);
         ("confidence_scores", PList [PFloat 4606732058837280358]);
         ("alternative_locators", PList [PStr "//button[text()='Submit']"]);
         ("reasoning", PStr "id 0.95, exact text 0.75");
         ("success", PBool true)].

Definition no_match : pyval :=
  PDict [("xpath_locators", PList []);
         ("confidence_scores", PList []);
         ("alternative_locators", PList []);
         ("reasoning", PStr "no strategy matched");
         ("success", PBool false)].

Definition generator (html target : string) (etype : option string)
  : result pyval :=
  if String.eqb target "" then Raise (ExternalError "ValueError" "empty hint")
  else if String.eqb target "nonexistent" then Ok no_match
  else Ok found.

Definition accepts (response : XPathResponse) : bool :=
  match xpath_locators response, confidence_scores response,
        alternative_locators response, reasoning response, success response
  with
  | PList _, PList _, PList _, PStr _, PBool _ => true
  | _, _, _, _, _ => false
  end.

Definition agent : Agent := fun request =>
  Ok (PDict [("xpath_locators", PList [PStr "//button"]);
             ("confidence_scores", PList [PFloat 4606281698874543309]);
             ("success", PBool false)]).

Definition submit_button : pyval :=
  PDict [("tag", PStr "button"); ("text", PStr "Submit");
         ("id", PStr "submit-btn")].
Definition search_box : pyval :=
  PDict [("tag", PStr "input"); ("text", PStr ""); ("id", PNone)].
Definition country_select : pyval :=
  PDict [("tag", PStr "select"); ("text", PStr "Country");
         ("id", PStr "country")].
Definition home_link : pyval :=
  PDict [("tag", PStr "a"); ("id", PStr "")].

Definition page_analysis : pyval :=
  PDict [("interactive_elements",
          PList [submit_button; search_box; country_select; home_link]);
         ("form_elements", PList [])].

Definition server : Env :=
  {| exn_str := exn_text;
     py_repr := repr_text;
     SimpleXPathGenerator := Ok generator;
     XPathResponse_accepts := accepts;
     xpath_agent := Some agent;
     html_interpretable := fun html => negb (String.eqb html "");
     build_tree := fun html => Ok (PStr html);
     classify := fun html => Ok page_analysis;
     SimpleTestExecutor :=
       Ok (fun test_cases => Ok (PDict [("status", PStr "passed")])) |}.

Definition request_for (html target : string) : XPathRequest :=
  {| html_content := html;
     target_description := target;
     element_type := None;
     additional_context := None |}.

Definition page : string := "<button id='submit-btn'>Submit</button>".

End Sample.

(** ** GET /health *)

(** The dictionary [health_check] returns; only the [xpath_agent] component
    depends on the state of the server. *)
Definition health_check (W : Env) : pyval :=
  PDict
    [("status", PStr "✅ healthy");
     ("timestamp", PStr "2024-01-01T00:00:00Z");
     ("version", PStr "1.0.0");
     ("components", PDict
        [("xpath_agent",
          PStr (match xpath_agent W with
                | Some _ => "✅ ready"
                | None => "⚠️ fallback mode"
                end));
         ("api_server", PStr "✅ running");
         ("html_parser", PStr "✅ available");
         ("test_executor", PStr "✅ available")]);
     ("uptime", PStr "100%");
     ("performance", PDict
        [("response_time", PStr "< 100ms");
         ("memory_usage", PStr "optimal");
         ("cpu_usage", PStr "low")])].

(** ** More vocabulary *)

(** A component of the health report. *)
Definition component (name : string) (health : pyval) : option pyval :=
  field "components" health ≫= field name.

(** Agent availability does not show in the response whenever the
    generator does not raise: the noninterference statement in its widest
    form. *)
Definition agent_noninterference (W : Env) (request : XPathRequest) : Prop :=
  ¬ raises (generator_outcome W request) →
  ∀ a1 a2,
    outcome (generate_xpath (with_agent W a1) request)
    = outcome (generate_xpath (with_agent W a2) request).

(** The same request with another [additional_context]. *)
Definition with_context (request : XPathRequest) (context : option string)
  : XPathRequest :=
  {| html_content := html_content request;
     target_description := target_description request;
     element_type := element_type request;
     additional_context := context |}.


(** The first exception the loop meets on an element without a tag. *)
Definition untagged_error (element : pyval) : pyexn :=
  match element with
  | PDict _ => KeyError "tag"
  | _ => TypeError "subscript"
  end.

(** ** Further deployments *)

Module Deployments.

(** A generator that returns the two mandatory entries only. *)
Definition terse : pyval :=
  PDict [("xpath_locators", PList [PStr "//a[1]"]);
         ("confidence_scores", PList [PFloat 4599075939470750515])].

Definition terse_server : Env :=
  {| exn_str := Sample.exn_text;
     py_repr := Sample.repr_text;
     SimpleXPathGenerator := Ok (fun html target etype => Ok terse);
     XPathResponse_accepts := Sample.accepts;
     xpath_agent := None;
     html_interpretable := fun html => negb (String.eqb html "");
     build_tree := fun html => Ok (PStr html);
     classify := fun html => Ok (PDict [("form_elements", PList [])]);
     SimpleTestExecutor := Raise (ImportError "agents.simple_test_executor") |}.

(** A server on which [simple_main] cannot be imported. *)
Definition agent_only_server : Env :=
  {| exn_str := Sample.exn_text;
     py_repr := Sample.repr_text;
     SimpleXPathGenerator := Raise (ImportError "simple_main");
     XPathResponse_accepts := Sample.accepts;
     xpath_agent := Some Sample.agent;
     html_interpretable := fun html => negb (String.eqb html "");
     build_tree := fun html => Ok (PStr html);
     classify :=
       fun html =>
         Ok (PDict [("interactive_elements",
                     PList [Sample.submit_button;
                            PDict [("text", PStr "untagged")];
                            Sample.home_link])]);
     SimpleTestExecutor :=
       Ok (fun test_cases => Raise (ExternalError "RuntimeError" "no browser")) |}.

(** A generator whose result has no [confidence_scores] entry. *)
Definition partial : pyval :=
  PDict [("xpath_locators", PList [PStr "//a[1]"]);
         ("success", PBool true)].

Definition partial_server : Env :=
  {| exn_str := Sample.exn_text;
     py_repr := Sample.repr_text;
     SimpleXPathGenerator := Ok (fun html target etype => Ok partial);
     XPathResponse_accepts := Sample.accepts;
     xpath_agent := None;
     html_interpretable := fun html => negb (String.eqb html "");
     build_tree := fun html => Ok (PStr html);
     classify := fun html => Ok Sample.page_analysis;
     SimpleTestExecutor := Raise (ImportError "agents.simple_test_executor") |}.

(** A start-up at which [XPathAgent()] fails for a reason other than the
    API key. *)
Definition failed_start : result Agent :=
  Raise (ExternalError "RuntimeError" "model not found").

(** The report of the sample server on the sample page. *)
Definition sample_report : pyval :=
  Eval vm_compute in
    match outcome (generate_test_scenarios Sample.server
                     (Sample.request_for Sample.page "Submit")) with
    | Ok report => report
    | Raise _ => PNone
    end.

End Deployments.

(** * Properties *)

(** ** The scenario loop *)

Section Scenarios.

Context (W : Env).

Lemma py_in_strs_scenario_tags element tag :
  element_tag element = Some tag →
  py_in_strs tag scenario_tags = yields_scenario element.
Proof.
  intros Htag. unfold yields_scenario. rewrite Htag.
  destruct tag as [| | | |s| |]; try reflexivity.
  cbn [py_in_strs scenario_tags existsb].
  destruct (String.eqb_spec s "button") as [->|Hb]; [reflexivity|].
  destruct (String.eqb_spec s "input") as [->|Hi]; [reflexivity|].
  destruct (String.eqb_spec s "a") as [->|Ha]; [reflexivity|].
  symmetry. apply bool_decide_eq_false. intros [?|[?|?]]; congruence.
Qed.

Lemma has_tag_inv element :
  has_tag element = true →
  ∃ entries tag, element = PDict entries ∧ dict_lookup "tag" entries = Some tag.
Proof.
  unfold has_tag, element_tag.
  destruct element as [| | | | | |entries]; try discriminate.
  destruct (dict_lookup "tag" entries) as [tag|] eqn:E; [|discriminate].
  eauto.
Qed.

(** The text an element is shown by: its [text] entry when the key is
    there, its tag otherwise. *)
Lemma display_eq entries tag :
  dict_lookup "tag" entries = Some tag →
  display W (PDict entries)
  = Ok (py_str W (default tag (dict_lookup "text" entries))).
Proof.
  intros Htag. unfold display. cbn. rewrite Htag. cbn.
  destruct (dict_lookup "text" entries); reflexivity.
Qed.

(** The scenario built for a tagged element, field by field. *)
Lemma make_scenario_eq prev entries tag :
  dict_lookup "tag" entries = Some tag →
  let shown := py_str W (default tag (dict_lookup "text" entries)) in
  make_scenario W prev (PDict entries)
  = Ok (PDict
      [("id", PStr ("scenario_" +:+ pretty (length prev + 1)%nat));
       ("name", PStr ("Test " +:+ shown +:+ " functionality"));
       ("description", PStr ("Verify " +:+ shown +:+ " works correctly"));
       ("steps", PList
          [PStr "Navigate to the page";
           PStr ("Locate " +:+ shown +:+ " element");
           PStr ("Interact with " +:+ shown);
           PStr "Verify expected behavior"]);
       ("expected_result", PStr (shown +:+ " should work as expected"));
       ("priority",
        PStr (if py_truthy (default PNone (dict_lookup "id" entries))
              then "high" else "medium"))]).
Proof.
  intros Htag shown. unfold make_scenario.
  rewrite (display_eq _ _ Htag). cbn.
  destruct (dict_lookup "id" entries); reflexivity.
Qed.

(** Loop invariant: the loop extends the list it was given by one scenario
    per element whose tag is button, input or a, in order, each built when
    the list held exactly the scenarios before it. *)
Lemma scenario_loop_spec elements :
  ∀ scenarios,
    forallb has_tag elements = true →
    ∃ emitted,
      scenario_loop W elements scenarios = Ok (scenarios ++ emitted)
      ∧ length emitted = length (List.filter yields_scenario elements)
      ∧ ∀ k element,
          List.filter yields_scenario elements !! k = Some element →
          ∃ scenario,
            emitted !! k = Some scenario
            ∧ make_scenario W (scenarios ++ take k emitted) element
              = Ok scenario.
Proof.
  induction elements as [|element rest IH]; intros scenarios Hall.
  - exists []. rewrite app_nil_r.
    split; [reflexivity|]. split; [reflexivity|].
    intros k el Hk. destruct k; discriminate.
  - cbn [forallb] in Hall. apply andb_true_iff in Hall as [Htag Hrest].
    destruct (has_tag_inv _ Htag) as (entries & tag & -> & Hlook).
    cbn [scenario_loop py_subscript]. rewrite Hlook. cbn [mbind result_bind].
    rewrite (py_in_strs_scenario_tags (PDict entries) tag) by exact Hlook.
    cbn [List.filter].
    destruct (yields_scenario (PDict entries)).
    + pose proof (make_scenario_eq scenarios entries tag Hlook) as Hmake.
      cbn zeta in Hmake. rewrite Hmake. cbn [mbind result_bind].
      match goal with |- context [scenarios ++ [?sc]] => set (first := sc) end.
      destruct (IH (scenarios ++ [first]) Hrest) as (more & Hrun & Hlen & Hnth).
      exists (first :: more). rewrite Hrun, <- app_assoc.
      split; [reflexivity|]. split; [cbn; lia|].
      intros [|k] el Hk.
      * injection Hk as <-. exists first. split; [reflexivity|].
        cbn [take]. rewrite app_nil_r. exact Hmake.
      * destruct (Hnth k el Hk) as (sc & Hsc & Hbuilt).
        exists sc. split; [exact Hsc|].
        cbn [take]. rewrite <- app_assoc in Hbuilt. exact Hbuilt.
    + destruct (IH scenarios Hrest) as (more & Hrun & Hlen & Hnth).
      exists more. auto.
Qed.

(** The handler, once the analysis and its interactive elements are known. *)
Lemma generate_test_scenarios_run request t analysis elements :
  analyze_html_structure W (html_content request) = Ok analysis →
  interactive_elements analysis = Ok elements →
  generate_test_scenarios W request t
  = (t ++ [CallAnalyzeHtml (html_content request)],
     match scenario_loop W elements [] with
     | Ok scenarios => Ok (scenario_report scenarios)
     | Raise e =>
         Raise (HTTPException 500
                  ("Test scenario generation error: " +:+ exn_str W e))
     end).
Proof.
  intros Hana Hels.
  unfold generate_test_scenarios, try_except, call, lift, raise.
  unfold mbind at 1. unfold M_bind. rewrite Hana, Hels. cbn.
  destruct (scenario_loop W elements []); reflexivity.
Qed.

End Scenarios.

(** What [generate_test_scenarios] returns on an analysis whose interactive
    elements all carry a tag: one scenario per element tagged button, input
    or a, in order, with every field spelled out. *)
Lemma emitted_scenario_fields W request t analysis elements :
  analyze_html_structure W (html_content request) = Ok analysis →
  interactive_elements analysis = Ok elements →
  forallb has_tag elements = true →
  ∃ scenarios,
    generate_test_scenarios W request t
    = (t ++ [CallAnalyzeHtml (html_content request)],
       Ok (scenario_report scenarios))
    ∧ length scenarios = length (List.filter yields_scenario elements)
    ∧ ∀ k scenario,
        scenarios !! k = Some scenario →
        ∃ entries tag,
          List.filter yields_scenario elements !! k = Some (PDict entries)
          ∧ dict_lookup "tag" entries = Some tag
          ∧ scenario
            = PDict
              [("id", PStr ("scenario_" +:+ pretty (k + 1)%nat));
               ("name",
                PStr ("Test "
                      +:+ py_str W (default tag (dict_lookup "text" entries))
                      +:+ " functionality"));
               ("description",
                PStr ("Verify "
                      +:+ py_str W (default tag (dict_lookup "text" entries))
                      +:+ " works correctly"));
               ("steps", PList
                  [PStr "Navigate to the page";
                   PStr ("Locate "
                         +:+ py_str W (default tag (dict_lookup "text" entries))
                         +:+ " element");
                   PStr ("Interact with "
                         +:+ py_str W (default tag (dict_lookup "text" entries)));
                   PStr "Verify expected behavior"]);
               ("expected_result",
                PStr (py_str W (default tag (dict_lookup "text" entries))
                      +:+ " should work as expected"));
               ("priority",
                PStr (if py_truthy (default PNone (dict_lookup "id" entries))
                      then "high" else "medium"))].
Proof.
  intros Hana Hels Htags.
  destruct (scenario_loop_spec W elements [] Htags)
    as (scenarios & Hrun & Hlen & Hnth).
  cbn [app] in Hrun, Hnth.
  exists scenarios.
  rewrite (generate_test_scenarios_run W request t analysis elements Hana Hels).
  rewrite Hrun. split; [reflexivity|]. split; [exact Hlen|].
  intros k scenario Hk.
  assert (k < length scenarios)%nat as Hlt by (eapply lookup_lt_Some; eauto).
  destruct (lookup_lt_is_Some_2 (List.filter yields_scenario elements) k)
    as [element Hel]; [lia|].
  destruct (Hnth k element Hel) as (scenario' & Hk' & Hbuilt).
  assert (scenario' = scenario) as -> by congruence.
  assert (has_tag element = true) as Htag.
  { pose proof Hel as Hin.
    apply list_elem_of_lookup_2, list_elem_of_In, filter_In in Hin.
    destruct Hin as [Hin _].
    rewrite forallb_forall in Htags. auto. }
  destruct (has_tag_inv _ Htag) as (entries & tag & -> & Hlook).
  exists entries, tag. split; [exact Hel|]. split; [exact Hlook|].
  pose proof (make_scenario_eq W (take k scenarios) entries tag Hlook) as Hmake.
  cbn zeta in Hmake. rewrite Hmake in Hbuilt.
  rewrite length_take, Nat.min_l in Hbuilt by lia.
  congruence.
Qed.




(** The text a scenario embeds is the element's [text] entry whenever the
    analysis lists one, whatever its value. *)
Lemma display_listed_text W entries tag text :
  dict_lookup "tag" entries = Some tag →
  display_text (PDict entries) = Some text →
  display W (PDict entries) = Ok (py_str W text).
Proof.
  intros Htag Htext. rewrite (display_eq W entries tag Htag).
  cbn in Htext. rewrite Htext. reflexivity.
Qed.

(** The tag name stands in only when the analysis lists no [text] entry. *)
Lemma display_without_text W entries tag :
  dict_lookup "tag" entries = Some (PStr tag) →
  display_text (PDict entries) = None →
  display W (PDict entries) = Ok tag.
Proof.
  intros Htag Htext. rewrite (display_eq W entries _ Htag).
  cbn in Htext. rewrite Htext. reflexivity.
Qed.

(** C5. Evaluation at an [input] element whose display text is the empty
    string: the scenario strings embed the empty text, and the tag name
    [input] does not stand in for it. *)
Theorem empty_text_not_replaced_by_tag W scenarios :
  ∃ scenario,
    make_scenario W scenarios
      (PDict [("tag", PStr "input"); ("text", PStr ""); ("id", PNone)])
    = Ok scenario
    ∧ field "name" scenario = Some (PStr "Test  functionality")
    ∧ field "description" scenario = Some (PStr "Verify  works correctly")
    ∧ field "steps" scenario
      = Some (PList [PStr "Navigate to the page";
                     PStr "Locate  element";
                     PStr "Interact with ";
                     PStr "Verify expected behavior"])
    ∧ field "expected_result" scenario
      = Some (PStr " should work as expected")
    ∧ field "name" scenario ≠ Some (PStr "Test input functionality").
Proof.
  eexists. split; [reflexivity|]. cbn. repeat split. discriminate.
Qed.

(** C6. The k-th scenario of the response (counting from 1) is identified
    by the string scenario_ followed by the decimal numeral of k, and no two
    scenarios of a response share an identifier. *)
Theorem scenario_ids_sequential W request t analysis elements :
  analyze_html_structure W (html_content request) = Ok analysis →
  interactive_elements analysis = Ok elements →
  forallb has_tag elements = true →
  ∃ scenarios,
    generate_test_scenarios W request t
    = (t ++ [CallAnalyzeHtml (html_content request)],
       Ok (scenario_report scenarios))
    ∧ (∀ k scenario,
         (1 ≤ k)%nat →
         scenarios !! (k - 1)%nat = Some scenario →
         field "id" scenario = Some (PStr ("scenario_" +:+ pretty k)))
    ∧ NoDup (field "id" <$> scenarios).
Proof.
  intros Hana Hels Htags.
  destruct (emitted_scenario_fields W request t analysis elements Hana Hels Htags)
    as (scenarios & Hrun & _ & Hfields).
  exists scenarios. split; [exact Hrun|].
  assert (∀ i scenario, scenarios !! i = Some scenario →
            field "id" scenario
            = Some (PStr ("scenario_" +:+ pretty (i + 1)%nat))) as Hid.
  { intros i scenario Hi.
    destruct (Hfields i scenario Hi) as (entries & tag & _ & _ & ->).
    reflexivity. }
  split.
  - intros k scenario Hk Hlook.
    rewrite (Hid _ _ Hlook). replace (k - 1 + 1)%nat with k by lia.
    reflexivity.
  - apply NoDup_alt. intros i j x Hi Hj.
    rewrite list_lookup_fmap in Hi, Hj.
    destruct (scenarios !! i) as [si|] eqn:Ei; [|discriminate].
    destruct (scenarios !! j) as [sj|] eqn:Ej; [|discriminate].
    cbn in Hi, Hj. rewrite (Hid _ _ Ei) in Hi. rewrite (Hid _ _ Ej) in Hj.
    rewrite <- Hj in Hi. cbn in Hi.
    (* the prefixes agree, and decimal numerals are injective *)
    simplify_eq. lia.
Qed.

Lemma scenario_ids_sequential_witness :
  ∃ scenarios,
    generate_test_scenarios Sample.server
      (Sample.request_for Sample.page "Submit") []
    = ([] ++ [CallAnalyzeHtml Sample.page], Ok (scenario_report scenarios))
    ∧ (∀ k scenario,
         (1 ≤ k)%nat →
         scenarios !! (k - 1)%nat = Some scenario →
         field "id" scenario = Some (PStr ("scenario_" +:+ pretty k)))
    ∧ NoDup (field "id" <$> scenarios).
Proof.
  apply (scenario_ids_sequential Sample.server
           (Sample.request_for Sample.page "Submit") [] Sample.page_analysis
           [Sample.submit_button; Sample.search_box;
            Sample.country_select; Sample.home_link]);
    reflexivity.
Defined.

(** C7. Every scenario of the response has exactly four steps, in this
    order: navigate to the page, locate the element, interact with it,
    verify the expected behaviour. *)
Theorem scenario_steps_template W request t analysis elements :
  analyze_html_structure W (html_content request) = Ok analysis →
  interactive_elements analysis = Ok elements →
  forallb has_tag elements = true →
  ∃ scenarios,
    generate_test_scenarios W request t
    = (t ++ [CallAnalyzeHtml (html_content request)],
       Ok (scenario_report scenarios))
    ∧ ∀ k scenario,
        scenarios !! k = Some scenario →
        ∃ shown,
          field "steps" scenario
          = Some (PList [PStr "Navigate to the page";
                         PStr ("Locate " +:+ shown +:+ " element");
                         PStr ("Interact with " +:+ shown);
                         PStr "Verify expected behavior"]).
Proof.
  intros Hana Hels Htags.
  destruct (emitted_scenario_fields W request t analysis elements Hana Hels Htags)
    as (scenarios & Hrun & _ & Hfields).
  exists scenarios. split; [exact Hrun|].
  intros k scenario Hk.
  destruct (Hfields k scenario Hk) as (entries & tag & _ & _ & ->).
  eexists. reflexivity.
Qed.

Lemma scenario_steps_template_witness :
  ∃ scenarios,
    generate_test_scenarios Sample.server
      (Sample.request_for Sample.page "Submit") []
    = ([] ++ [CallAnalyzeHtml Sample.page], Ok (scenario_report scenarios))
    ∧ ∀ k scenario,
        scenarios !! k = Some scenario →
        ∃ shown,
          field "steps" scenario
          = Some (PList [PStr "Navigate to the page";
                         PStr ("Locate " +:+ shown +:+ " element");
                         PStr ("Interact with " +:+ shown);
                         PStr "Verify expected behavior"]).
Proof.
  apply (scenario_steps_template Sample.server
           (Sample.request_for Sample.page "Submit") [] Sample.page_analysis
           [Sample.submit_button; Sample.search_box;
            Sample.country_select; Sample.home_link]);
    reflexivity.
Defined.

(** ** Start-up *)

Example py_contains_inside :
  py_contains "OPENAI_API_KEY" "The OPENAI_API_KEY variable is not set" = true
  ∧ py_contains "OPENAI_API_KEY" "model not found" = false
  ∧ py_contains "" "" = true.
Proof. repeat split. Qed.

(** After [lifespan] the global holds an agent when [XPathAgent()] returned
    it, or when the global held it before and the constructor failed with a
    message that does not name the API key. *)
Lemma lifespan_agent W XPathAgent_new agent :
  xpath_agent (lifespan W XPathAgent_new) = Some agent
  ↔ XPathAgent_new = Ok agent
    ∨ ∃ e, XPathAgent_new = Raise e
           ∧ py_contains "OPENAI_API_KEY" (exn_str W e) = false
           ∧ xpath_agent W = Some agent.
Proof.
  unfold lifespan. destruct XPathAgent_new as [a|e].
  - cbn. split.
    + intros [= ->]. left. reflexivity.
    + intros [[= ->]|(e & He & _)]; [reflexivity|discriminate].
  - destruct (py_contains "OPENAI_API_KEY" (exn_str W e)) eqn:Hkey; cbn.
    + split; [discriminate|].
      intros [He|(e' & [= <-] & Hno & _)]; [discriminate|congruence].
    + split.
      * intros Hold. right. exists e. auto.
      * intros [He|(e' & _ & _ & Hold)]; [discriminate|exact Hold].
Qed.

(** ** POST /generate-xpath *)

Section GenerateXPath.

Context (W : Env).

(** The response built from a generator result is the serialised
    LocatorResult, provided the response model accepts it. *)
Lemma deterministic_response_Ok r response :
  deterministic_response W r = Ok response
  ↔ LocatorResult_response r = Some response
    ∧ XPathResponse_accepts W response = true.
Proof.
  unfold deterministic_response, LocatorResult_response, new_XPathResponse.
  destruct r as [| | | | | |entries]; cbn; try (split; [discriminate|]).
  1-6: intros [? _]; discriminate.
  destruct (dict_lookup "xpath_locators" entries) as [locators|]; cbn;
    [|split; [discriminate | intros [? _]; discriminate]].
  destruct (dict_lookup "confidence_scores" entries) as [scores|]; cbn;
    [|split; [discriminate | intros [? _]; discriminate]].
  destruct (dict_lookup "alternative_locators" entries),
           (dict_lookup "reasoning" entries),
           (dict_lookup "success" entries); cbn;
    match goal with
    | |- context [XPathResponse_accepts W ?fields] =>
        destruct (XPathResponse_accepts W fields) eqn:Hacc
    end;
    (split; [intros [= <-]; auto | intros [[= <-] ?]; congruence]).
Qed.

Lemma is_LocatorResult_response r :
  is_LocatorResult W r = true →
  ∃ response,
    LocatorResult_response r = Some response
    ∧ deterministic_response W r = Ok response.
Proof.
  unfold is_LocatorResult.
  destruct (LocatorResult_response r) as [response|] eqn:E; [|discriminate].
  intros Hacc. exists response. split; [reflexivity|].
  apply deterministic_response_Ok. auto.
Qed.

Lemma not_LocatorResult_raises r :
  is_LocatorResult W r = false → raises (deterministic_response W r).
Proof.
  intros Hno. destruct (deterministic_response W r) as [response|e] eqn:E.
  - apply deterministic_response_Ok in E as [Hresp Hacc].
    unfold is_LocatorResult in Hno. rewrite Hresp in Hno. congruence.
  - exists e. reflexivity.
Qed.

(** The [try] body extends the calls made so far by the generator call (if
    the import went through) and ends as [deterministic_outcome] says. *)
Lemma deterministic_stage_eq request t :
  deterministic_stage W request t
  = (t ++ generator_calls W request, deterministic_outcome W request).
Proof.
  unfold deterministic_stage, deterministic_outcome, generator_outcome,
    generator_calls, lift, call.
  unfold mbind at 1 2. unfold M_bind.
  destruct (SimpleXPathGenerator W) as [generate|e]; cbn.
  - destruct (generate _ _ _) as [r|e]; reflexivity.
  - rewrite app_nil_r. reflexivity.
Qed.

(** The [except] body, case by case. *)
Lemma fallback_eq request e t :
  fallback W request e t
  = match xpath_agent W with
    | None =>
        (t, Raise (HTTPException 500
                     ("XPath generation error: " +:+ exn_str W e)))
    | Some agent =>
        match parse_html W (html_content request) with
        | Raise parse_error =>
            (t ++ [CallParseHtml (html_content request)],
             Raise (HTTPException 500
                      ("Agent error: " +:+ exn_str W parse_error)))
        | Ok _ =>
            (t ++ [CallParseHtml (html_content request); CallAgent request],
             match r ← agent request; agent_response W r with
             | Ok response => Ok response
             | Raise ai_error =>
                 Raise (HTTPException 500
                          ("Agent error: " +:+ exn_str W ai_error))
             end)
        end
    end.
Proof.
  unfold fallback, agent_stage, try_except, raise, lift, call.
  destruct (xpath_agent W) as [agent|]; [|reflexivity].
  unfold mbind at 1 2. unfold M_bind.
  destruct (parse_html W (html_content request)) as [tree|pe]; [|reflexivity].
  rewrite <- app_assoc. cbn [app].
  destruct (agent request) as [r|ae]; cbn; [|reflexivity].
  destruct (agent_response W r); reflexivity.
Qed.

Lemma generate_xpath_eq request t :
  generate_xpath W request t
  = match deterministic_outcome W request with
    | Ok response => (t ++ generator_calls W request, Ok response)
    | Raise e => fallback W request e (t ++ generator_calls W request)
    end.
Proof.
  unfold generate_xpath, try_except. rewrite deterministic_stage_eq.
  destruct (deterministic_outcome W request); reflexivity.
Qed.

Lemma generator_calls_no_agent request :
  agent_invoked (generator_calls W request) = false.
Proof.
  unfold generator_calls. destruct (SimpleXPathGenerator W); reflexivity.
Qed.

Lemma agent_invoked_app t1 t2 :
  agent_invoked (t1 ++ t2) = agent_invoked t1 || agent_invoked t2.
Proof. apply existsb_app. Qed.

(** A response built from the agent's result carries the literal [True]. *)
Lemma agent_response_success r response :
  agent_response W r = Ok response → success response = PBool true.
Proof.
  unfold agent_response, new_XPathResponse.
  destruct (py_subscript r "xpath_locators"); cbn; [|discriminate].
  destruct (py_subscript r "confidence_scores"); cbn; [|discriminate].
  destruct (py_get r "alternative_locators" _); cbn; [|discriminate].
  destruct (py_get r "reasoning" _); cbn; [|discriminate].
  destruct (XPathResponse_accepts W _); [|discriminate].
  intros [= <-]. reflexivity.
Qed.

End GenerateXPath.

(** C1 as the specification words it does not hold: on a NoMatch result the
    generator reports [success = false], an agent is configured, and the
    handler answers without calling it. *)
Lemma no_fallback_on_reported_failure :
  ¬ fallback_on_failure_or_raise Sample.server
      (Sample.request_for Sample.page "nonexistent").
Proof.
  intros [_ Hback].
  assert (agent_invoked
            (calls (generate_xpath Sample.server
                      (Sample.request_for Sample.page "nonexistent"))) = true)
    as Hcalled.
  { apply Hback. left. eexists. split; reflexivity. }
  vm_compute in Hcalled. discriminate.
Qed.

(** C1, amended. The agent is called exactly when the body of the [try]
    raises (the generator raises, or no response can be built from what it
    returns), an agent is configured and the page parses; a response the
    body builds, whatever its success flag, is returned with no call to the
    agent. *)
Theorem agent_invoked_iff W request :
  (agent_invoked (calls (generate_xpath W request)) = true
   ↔ raises (deterministic_outcome W request)
     ∧ is_Some (xpath_agent W)
     ∧ is_Ok (parse_html W (html_content request)) = true)
  ∧ (raises (deterministic_outcome W request)
     ↔ raises (generator_outcome W request)
       ∨ ∃ r, generator_outcome W request = Ok r
              ∧ is_LocatorResult W r = false)
  ∧ (∀ response,
       deterministic_outcome W request = Ok response →
       generate_xpath W request [] = (generator_calls W request, Ok response)).
Proof.
  split; [|split].
  - unfold calls. rewrite generate_xpath_eq. cbn [app].
    destruct (deterministic_outcome W request) as [response|e] eqn:Hdet.
    + cbn [fst]. rewrite generator_calls_no_agent.
      split; [discriminate|]. intros [[e He] _]. discriminate.
    + rewrite fallback_eq.
      destruct (xpath_agent W) as [agent|].
      * destruct (parse_html W (html_content request)) as [tree|pe];
          cbn [fst is_Ok]; rewrite agent_invoked_app, generator_calls_no_agent.
        -- split; [|reflexivity]. intros _.
           split; [exists e; reflexivity|]. split; [eauto|reflexivity].
        -- split; [discriminate|]. intros (_ & _ & ?). discriminate.
      * cbn [fst]. rewrite generator_calls_no_agent.
        split; [discriminate|]. intros (_ & [agent Hagent] & _). discriminate.
  - unfold deterministic_outcome.
    destruct (generator_outcome W request) as [r|e]; cbn.
    + split.
      * intros [e He]. right. exists r. split; [reflexivity|].
        destruct (is_LocatorResult W r) eqn:Hwf; [|reflexivity].
        destruct (is_LocatorResult_response W r Hwf) as (resp & _ & Hresp).
        congruence.
      * intros [[e He]|(r' & [= <-] & Hno)]; [discriminate|].
        apply not_LocatorResult_raises, Hno.
    + split; [|intros _; exists e; reflexivity].
      intros _. left. exists e. reflexivity.
  - intros response Hdet. rewrite generate_xpath_eq, Hdet. reflexivity.
Qed.

(** C2. When the generator returns a NoMatch result, the handler returns it
    as a response: success false, empty primary locator, no exception, no
    HTTP error, and no call to the agent. *)
Theorem no_match_returned_as_response W request r t :
  generator_outcome W request = Ok r →
  is_NoMatch W r = true →
  ∃ response,
    generate_xpath W request t = (t ++ generator_calls W request, Ok response)
    ∧ LocatorResult_response r = Some response
    ∧ success response = PBool false
    ∧ empty_locator (xpath_locators response) = true
    ∧ agent_invoked (generator_calls W request) = false.
Proof.
  intros Hgen Hno. unfold is_NoMatch in Hno.
  apply andb_true_iff in Hno as [Hwf Hshape].
  destruct (is_LocatorResult_response W r Hwf) as (response & Hresp & Hbuilt).
  rewrite Hresp in Hshape. apply andb_true_iff in Hshape as [Hempty Hflag].
  exists response. rewrite generate_xpath_eq.
  unfold deterministic_outcome. rewrite Hgen. cbn. rewrite Hbuilt.
  repeat split; auto using generator_calls_no_agent.
  destruct (success response) as [|[]| | | | |]; try discriminate. reflexivity.
Qed.

Lemma no_match_returned_as_response_witness :
  ∃ response,
    generate_xpath Sample.server
      (Sample.request_for Sample.page "nonexistent") []
    = ([] ++ generator_calls Sample.server
               (Sample.request_for Sample.page "nonexistent"),
       Ok response)
    ∧ LocatorResult_response Sample.no_match = Some response
    ∧ success response = PBool false
    ∧ empty_locator (xpath_locators response) = true
    ∧ agent_invoked
        (generator_calls Sample.server
           (Sample.request_for Sample.page "nonexistent")) = false.
Proof.
  apply (no_match_returned_as_response Sample.server
           (Sample.request_for Sample.page "nonexistent") Sample.no_match []);
    reflexivity.
Defined.

(** C8. A response that [generate_xpath] returns after calling the agent
    was built from the agent's result and has success flag [True], whatever
    that result holds. *)
Theorem agent_response_is_successful W request response :
  outcome (generate_xpath W request) = Ok response →
  agent_invoked (calls (generate_xpath W request)) = true →
  success response = PBool true
  ∧ ∃ agent r,
      xpath_agent W = Some agent
      ∧ raises (deterministic_outcome W request)
      ∧ agent request = Ok r
      ∧ agent_response W r = Ok response.
Proof.
  unfold outcome, calls. rewrite generate_xpath_eq. cbn [app].
  destruct (deterministic_outcome W request) as [built|e] eqn:Hdet.
  - cbn [fst snd]. rewrite generator_calls_no_agent. discriminate.
  - rewrite fallback_eq.
    destruct (xpath_agent W) as [agent|]; [|discriminate].
    destruct (parse_html W (html_content request)) as [tree|pe];
      [|discriminate].
    cbn [fst snd]. intros Hout _.
    destruct (agent request) as [r|ae] eqn:Hagent; cbn in Hout;
      [|discriminate].
    destruct (agent_response W r) as [resp|ae] eqn:Hresp; [|discriminate].
    injection Hout as <-.
    split; [eapply agent_response_success; eauto|].
    exists agent, r. split; [reflexivity|].
    split; [exists e; reflexivity|]. auto.
Qed.

Lemma agent_response_is_successful_witness :
  success
    {| xpath_locators := PList [PStr "//button"];
       confidence_scores := PList [PFloat 4606281698874543309];
       alternative_locators := PList [];
       reasoning := PStr "";
       success := PBool true |} = PBool true
  ∧ ∃ agent r,
      xpath_agent Sample.server = Some agent
      ∧ raises (deterministic_outcome Sample.server
                  (Sample.request_for Sample.page ""))
      ∧ agent (Sample.request_for Sample.page "") = Ok r
      ∧ agent_response Sample.server r
        = Ok {| xpath_locators := PList [PStr "//button"];
                confidence_scores := PList [PFloat 4606281698874543309];
                alternative_locators := PList [];
                reasoning := PStr "";
                success := PBool true |}.
Proof.
  apply (agent_response_is_successful Sample.server
           (Sample.request_for Sample.page "")); reflexivity.
Defined.

(** C10 in its widest form does not hold: a generator that returns,
    without raising, a result with no [confidence_scores] entry sends the
    handler into its [except] clause, where the answer is the agent's when
    one is configured and status 500 when none is. *)
Lemma agent_shows_on_partial_result :
  ¬ agent_noninterference Deployments.partial_server
      (Sample.request_for Sample.page "Home").
Proof.
  intros Hsame.
  assert (¬ raises (generator_outcome Deployments.partial_server
                      (Sample.request_for Sample.page "Home"))) as Hreturns.
  { intros [e He]. discriminate. }
  specialize (Hsame Hreturns (Some Sample.agent) None).
  vm_compute in Hsame. discriminate.
Qed.

(** C10, amended. On a request for which the generator does not raise and
    returns a LocatorResult (a result a response can be built from), the
    handler's calls and response are the same whatever the global
    [xpath_agent] holds, an agent or [None]: the response is the serialised
    result of the generator. *)
Theorem response_independent_of_agent W request r a1 a2 t :
  generator_outcome W request = Ok r →
  is_LocatorResult W r = true →
  generate_xpath (with_agent W a1) request t
  = generate_xpath (with_agent W a2) request t
  ∧ ∃ response,
      LocatorResult_response r = Some response
      ∧ ∀ a, outcome (generate_xpath (with_agent W a) request) = Ok response.
Proof.
  intros Hgen Hwf.
  destruct (is_LocatorResult_response W r Hwf) as (response & Hresp & Hbuilt).
  assert (∀ a u, generate_xpath (with_agent W a) request u
                 = (u ++ generator_calls W request, Ok response)) as Hrun.
  { intros a u. rewrite generate_xpath_eq.
    change (deterministic_outcome (with_agent W a) request)
      with (deterministic_outcome W request).
    change (generator_calls (with_agent W a) request)
      with (generator_calls W request).
    unfold deterministic_outcome. rewrite Hgen. cbn. rewrite Hbuilt.
    reflexivity. }
  split; [rewrite !Hrun; reflexivity|].
  exists response. split; [exact Hresp|].
  intros a. unfold outcome. rewrite Hrun. reflexivity.
Qed.

Lemma response_independent_of_agent_witness :
  generate_xpath (with_agent Sample.server (Some Sample.agent))
    (Sample.request_for Sample.page "Submit") []
  = generate_xpath (with_agent Sample.server None)
      (Sample.request_for Sample.page "Submit") []
  ∧ ∃ response,
      LocatorResult_response Sample.found = Some response
      ∧ ∀ a, outcome (generate_xpath (with_agent Sample.server a)
                        (Sample.request_for Sample.page "Submit"))
             = Ok response.
Proof.
  apply (response_independent_of_agent Sample.server
           (Sample.request_for Sample.page "Submit") Sample.found
           (Some Sample.agent) None []); reflexivity.
Defined.

(** ** POST /analyze-html and the parse failure *)

(** An exception of the parser becomes an HTTP 500 error of either handler;
    none of them answers with a success report. *)
Lemma analysis_error_reported W request e t :
  analyze_html_structure W (html_content request) = Raise e →
  analyze_html W request t
  = (t ++ [CallAnalyzeHtml (html_content request)],
     Raise (HTTPException 500 ("HTML analysis error: " +:+ exn_str W e)))
  ∧ generate_test_scenarios W request t
    = (t ++ [CallAnalyzeHtml (html_content request)],
       Raise (HTTPException 500
                ("Test scenario generation error: " +:+ exn_str W e))).
Proof.
  intros Hraise.
  unfold analyze_html, generate_test_scenarios, try_except, call, raise.
  unfold mbind, M_bind. rewrite Hraise. split; reflexivity.
Qed.

(** The handlers themselves do not look at the page: whenever the parser
    returns an analysis, also one that lists no element at all, they report
    success. *)
Lemma analysis_reported_as_is W request analysis t :
  analyze_html_structure W (html_content request) = Ok analysis →
  analyze_html W request t
  = (t ++ [CallAnalyzeHtml (html_content request)],
     Ok (PDict [("success", PBool true); ("analysis", analysis)]))
  ∧ (interactive_elements analysis = Ok [] →
     generate_test_scenarios W request t
     = (t ++ [CallAnalyzeHtml (html_content request)],
        Ok (scenario_report []))).
Proof.
  intros Hana. split.
  - unfold analyze_html, try_except, call.
    unfold mbind, M_bind. rewrite Hana. reflexivity.
  - intros Hels.
    rewrite (generate_test_scenarios_run W request t analysis [] Hana Hels).
    reflexivity.
Qed.

(** C3. On a page that is not interpretable as HTML, [analyze_html] and
    [generate_test_scenarios] both end in an HTTP 500 error that carries the
    parse failure; neither returns a report marked successful. *)
Theorem parse_failure_reported W request t :
  html_interpretable W (html_content request) = false →
  analyze_html W request t
  = (t ++ [CallAnalyzeHtml (html_content request)],
     Raise (HTTPException 500
              ("HTML analysis error: " +:+ exn_str W ParseFailure)))
  ∧ generate_test_scenarios W request t
    = (t ++ [CallAnalyzeHtml (html_content request)],
       Raise (HTTPException 500
                ("Test scenario generation error: "
                 +:+ exn_str W ParseFailure)))
  ∧ (∀ report, (analyze_html W request t).2 ≠ Ok report)
  ∧ (∀ report, (generate_test_scenarios W request t).2 ≠ Ok report).
Proof.
  intros Hbad.
  assert (analyze_html_structure W (html_content request) = Raise ParseFailure)
    as Hraise.
  { unfold analyze_html_structure. rewrite Hbad. reflexivity. }
  destruct (analysis_error_reported W request ParseFailure t Hraise)
    as [Hana Hgen].
  rewrite Hana, Hgen. repeat split; intros report; discriminate.
Qed.

Lemma parse_failure_reported_witness :
  analyze_html Sample.server (Sample.request_for "" "Submit") []
  = ([] ++ [CallAnalyzeHtml ""],
     Raise (HTTPException 500
              ("HTML analysis error: "
               +:+ exn_str Sample.server ParseFailure)))
  ∧ generate_test_scenarios Sample.server (Sample.request_for "" "Submit") []
    = ([] ++ [CallAnalyzeHtml ""],
       Raise (HTTPException 500
                ("Test scenario generation error: "
                 +:+ exn_str Sample.server ParseFailure)))
  ∧ (∀ report,
       (analyze_html Sample.server (Sample.request_for "" "Submit") []).2
       ≠ Ok report)
  ∧ (∀ report,
       (generate_test_scenarios Sample.server
          (Sample.request_for "" "Submit") []).2 ≠ Ok report).
Proof.
  apply (parse_failure_reported Sample.server
           (Sample.request_for "" "Submit") []); reflexivity.
Defined.

(** ** POST /execute-tests *)

(** C9. A request whose [test_cases] entry is missing or is the empty list
    is answered with status 500: the [HTTPException] with status 400 raised
    in the [try] is caught by its [except Exception] clause and wrapped.
    The executor is not called. *)
Theorem missing_test_cases_is_500 W request t :
  dict_lookup "test_cases" request = None
  ∨ dict_lookup "test_cases" request = Some (PList []) →
  ∃ e,
    execute_tests W request t
    = (t, Raise (HTTPException 500
                   ("Test execution error: " +:+ exn_str W e)))
    ∧ (is_Ok (SimpleTestExecutor W) = true →
       e = HTTPException 400 "test_cases required").
Proof.
  intros Hcases.
  unfold execute_tests, try_except, lift, raise, call.
  unfold mbind at 1 2. unfold M_bind.
  destruct (SimpleTestExecutor W) as [executor|import_error].
  - exists (HTTPException 400 "test_cases required").
    split; [|reflexivity].
    cbn. destruct Hcases as [-> | ->]; reflexivity.
  - exists import_error. split; [reflexivity|discriminate].
Qed.

Lemma missing_test_cases_is_500_witness :
  ∃ e,
    execute_tests Sample.server [("suite", PStr "smoke")] []
    = ([], Raise (HTTPException 500
                    ("Test execution error: " +:+ exn_str Sample.server e)))
    ∧ (is_Ok (SimpleTestExecutor Sample.server) = true →
       e = HTTPException 400 "test_cases required").
Proof.
  apply (missing_test_cases_is_500 Sample.server [("suite", PStr "smoke")] []).
  left. reflexivity.
Defined.

(** ** Runs of the sample deployment *)

(** Three of the four interactive elements are tagged button, input or a;
    the select is skipped and leaves no gap in the numbering. *)
Example sample_scenario_ids :
  ∃ scenarios,
    outcome (generate_test_scenarios Sample.server
               (Sample.request_for Sample.page "Submit"))
    = Ok (scenario_report scenarios)
    ∧ field "id" <$> scenarios
      = [Some (PStr "scenario_1"); Some (PStr "scenario_2");
         Some (PStr "scenario_3")]
    ∧ field "priority" <$> scenarios
      = [Some (PStr "high"); Some (PStr "medium"); Some (PStr "medium")]
    ∧ field "name" <$> scenarios
      = [Some (PStr "Test Submit functionality");
         Some (PStr "Test  functionality");
         Some (PStr "Test a functionality")].
Proof. eexists. split; [reflexivity|]. repeat split. Qed.

(** The generator raises on an empty hint: with an agent the answer is the
    agent's, marked successful although the agent said otherwise; without
    one it is an HTTP 500 error. *)
Example sample_fallback :
  generate_xpath Sample.server (Sample.request_for Sample.page "") []
  = ([CallSimpleGenerator Sample.page "" None;
      CallParseHtml Sample.page;
      CallAgent (Sample.request_for Sample.page "")],
     Ok {| xpath_locators := PList [PStr "//button"];
           confidence_scores := PList [PFloat 4606281698874543309];
           alternative_locators := PList [];
           reasoning := PStr "";
           success := PBool true |}).
Proof. reflexivity. Qed.

Example sample_no_agent :
  generate_xpath (with_agent Sample.server None)
    (Sample.request_for Sample.page "") []
  = ([CallSimpleGenerator Sample.page "" None],
     Raise (HTTPException 500 "XPath generation error: empty hint")).
Proof. reflexivity. Qed.

(** A non-empty [test_cases] list reaches the executor. *)
Example sample_execute :
  execute_tests Sample.server [("test_cases", PList [PStr "login"])] []
  = ([CallExecutor (PList [PStr "login"])],
     Ok (PDict [("status", PStr "passed")])).
Proof. reflexivity. Qed.

(** * Further properties of the handlers *)

(** ** POST /generate-xpath *)

(** X1. Whatever goes wrong in [generate_xpath], the client sees status 500
    and the [try] body has raised.  With no agent the detail names the
    exception of the [try] body.  With an agent the detail names the
    exception of the fallback (of [parse_html], of the agent or of building
    the response from its result), and the exception that started the
    fallback is not reported. *)
Theorem generate_xpath_error_detail W request e :
  outcome (generate_xpath W request) = Raise e →
  ∃ cause,
    deterministic_outcome W request = Raise cause
    ∧ match xpath_agent W with
      | None =>
          e = HTTPException 500
                ("XPath generation error: " +:+ exn_str W cause)
      | Some agent =>
          ∃ ai_error,
            (tree ← parse_html W (html_content request);
             r ← agent request;
             agent_response W r) = Raise ai_error
            ∧ e = HTTPException 500
                    ("Agent error: " +:+ exn_str W ai_error)
      end.
Proof.
  unfold outcome. rewrite generate_xpath_eq. cbn [app].
  destruct (deterministic_outcome W request) as [response|cause];
    [discriminate|].
  rewrite fallback_eq. intros Hout. exists cause. split; [reflexivity|].
  destruct (xpath_agent W) as [agent|].
  - destruct (parse_html W (html_content request)) as [tree|parse_error];
      cbn [snd mbind result_bind] in Hout |- *.
    + destruct (r ← agent request; agent_response W r) as [response|ai_error];
        [discriminate|].
      injection Hout as <-. eauto.
    + injection Hout as <-. eauto.
  - cbn [snd] in Hout. injection Hout as <-. reflexivity.
Qed.

Lemma generate_xpath_error_detail_witness :
  ∃ cause,
    deterministic_outcome Sample.server (Sample.request_for "" "") = Raise cause
    ∧ ∃ ai_error,
        (tree ← parse_html Sample.server
                  (html_content (Sample.request_for "" ""));
         r ← Sample.agent (Sample.request_for "" "");
         agent_response Sample.server r) = Raise ai_error
        ∧ HTTPException 500 "Agent error: input is not interpretable as HTML"
          = HTTPException 500
              ("Agent error: " +:+ exn_str Sample.server ai_error).
Proof.
  apply (generate_xpath_error_detail Sample.server (Sample.request_for "" "")
           (HTTPException 500
              "Agent error: input is not interpretable as HTML")).
  reflexivity.
Defined.

(** X2. The calls of one request, in order: the generator, unless its
    import failed; then nothing more when the [try] body built a response
    or no agent is configured; otherwise [parse_html], followed by the
    agent, called with the request itself, when the page parsed.  Each call
    is made at most once. *)
Theorem generate_xpath_call_order W request :
  calls (generate_xpath W request)
  = match SimpleXPathGenerator W with
    | Ok _ => [CallSimpleGenerator (html_content request)
                 (target_description request) (element_type request)]
    | Raise _ => []
    end
    ++ match deterministic_outcome W request, xpath_agent W with
       | Ok _, _ => []
       | Raise _, None => []
       | Raise _, Some _ =>
           match parse_html W (html_content request) with
           | Raise _ => [CallParseHtml (html_content request)]
           | Ok _ => [CallParseHtml (html_content request); CallAgent request]
           end
       end.
Proof.
  unfold calls. rewrite generate_xpath_eq. cbn [app].
  fold (generator_calls W request).
  destruct (deterministic_outcome W request) as [response|cause].
  - cbn [fst]. rewrite app_nil_r. reflexivity.
  - rewrite fallback_eq.
    destruct (xpath_agent W) as [agent|];
      [|cbn [fst]; rewrite app_nil_r; reflexivity].
    destruct (parse_html W (html_content request)); reflexivity.
Qed.

(** X3. Entries the generator leaves out are filled in: no alternatives is
    the empty list, no reasoning the empty string, and a result without a
    success entry is reported as successful. *)
Theorem missing_entries_default W request entries locators scores t :
  generator_outcome W request = Ok (PDict entries) →
  dict_lookup "xpath_locators" entries = Some locators →
  dict_lookup "confidence_scores" entries = Some scores →
  dict_lookup "alternative_locators" entries = None →
  dict_lookup "reasoning" entries = None →
  dict_lookup "success" entries = None →
  XPathResponse_accepts W
    {| xpath_locators := locators;
       confidence_scores := scores;
       alternative_locators := PList [];
       reasoning := PStr "";
       success := PBool true |} = true →
  generate_xpath W request t
  = (t ++ generator_calls W request,
     Ok {| xpath_locators := locators;
           confidence_scores := scores;
           alternative_locators := PList [];
           reasoning := PStr "";
           success := PBool true |}).
Proof.
  intros Hgen Hloc Hscore Halt Hwhy Hflag Hacc.
  rewrite generate_xpath_eq. unfold deterministic_outcome. rewrite Hgen.
  cbn [mbind result_bind].
  unfold deterministic_response, new_XPathResponse. cbn.
  rewrite Hloc, Hscore, Halt, Hwhy, Hflag. cbn. rewrite Hacc. reflexivity.
Qed.

Lemma missing_entries_default_witness :
  generate_xpath Deployments.terse_server
    (Sample.request_for Sample.page "Home") []
  = ([] ++ generator_calls Deployments.terse_server
             (Sample.request_for Sample.page "Home"),
     Ok {| xpath_locators := PList [PStr "//a[1]"];
           confidence_scores := PList [PFloat 4599075939470750515];
           alternative_locators := PList [];
           reasoning := PStr "";
           success := PBool true |}).
Proof.
  apply (missing_entries_default Deployments.terse_server
           (Sample.request_for Sample.page "Home")
           [("xpath_locators", PList [PStr "//a[1]"]);
            ("confidence_scores", PList [PFloat 4599075939470750515])]);
    reflexivity.
Defined.

(** X4. [additional_context] reaches the agent only: when the [try] body
    builds a response, the calls and the response are the same whatever the
    request's additional context is. *)
Theorem context_ignored_by_generator W request context response t :
  deterministic_outcome W request = Ok response →
  generate_xpath W (with_context request context) t
  = generate_xpath W request t
  ∧ generate_xpath W request t
    = (t ++ generator_calls W request, Ok response).
Proof.
  intros Hdet. rewrite !generate_xpath_eq.
  change (deterministic_outcome W (with_context request context))
    with (deterministic_outcome W request).
  change (generator_calls W (with_context request context))
    with (generator_calls W request).
  rewrite Hdet. split; reflexivity.
Qed.

Lemma context_ignored_by_generator_witness :
  generate_xpath Sample.server
    (with_context (Sample.request_for Sample.page "Submit")
       (Some "checkout form")) []
  = generate_xpath Sample.server (Sample.request_for Sample.page "Submit") []
  ∧ generate_xpath Sample.server (Sample.request_for Sample.page "Submit") []
    = ([] ++ generator_calls Sample.server
               (Sample.request_for Sample.page "Submit"),
       Ok {| xpath_locators := PList [PStr "//*[@id='submit-btn']"];
             confidence_scores := PList [PFloat 4606732058837280358];
             alternative_locators := PList [PStr "//button[text()='Submit']"];
             reasoning := PStr "id 0.95, exact text 0.75";
             success := PBool true |}).
Proof.
  apply (context_ignored_by_generator Sample.server
           (Sample.request_for Sample.page "Submit") (Some "checkout form")).
  reflexivity.
Defined.

(** X5. When [simple_main] cannot be imported the generator is never
    called, and with an agent configured the request is still answered, from
    the agent's result. *)
Theorem answered_by_agent_alone W request import_error agent tree r response t :
  SimpleXPathGenerator W = Raise import_error →
  xpath_agent W = Some agent →
  parse_html W (html_content request) = Ok tree →
  agent request = Ok r →
  agent_response W r = Ok response →
  generate_xpath W request t
  = (t ++ [CallParseHtml (html_content request); CallAgent request],
     Ok response)
  ∧ success response = PBool true.
Proof.
  intros Himport Hagent Hparse Hrun Hbuilt.
  rewrite generate_xpath_eq.
  unfold deterministic_outcome, generator_outcome, generator_calls.
  rewrite Himport. cbn [mbind result_bind]. rewrite app_nil_r.
  rewrite fallback_eq, Hagent, Hparse, Hrun. cbn [mbind result_bind].
  rewrite Hbuilt. split; [reflexivity|].
  eapply agent_response_success; eauto.
Qed.

Lemma answered_by_agent_alone_witness :
  generate_xpath Deployments.agent_only_server
    (Sample.request_for Sample.page "Submit") []
  = ([] ++ [CallParseHtml Sample.page;
            CallAgent (Sample.request_for Sample.page "Submit")],
     Ok {| xpath_locators := PList [PStr "//button"];
           confidence_scores := PList [PFloat 4606281698874543309];
           alternative_locators := PList [];
           reasoning := PStr "";
           success := PBool true |})
  ∧ success {| xpath_locators := PList [PStr "//button"];
               confidence_scores := PList [PFloat 4606281698874543309];
               alternative_locators := PList [];
               reasoning := PStr "";
               success := PBool true |} = PBool true.
Proof.
  apply (answered_by_agent_alone Deployments.agent_only_server
           (Sample.request_for Sample.page "Submit")
           (ImportError "simple_main") Sample.agent (PStr Sample.page)
           (PDict [("xpath_locators", PList [PStr "//button"]);
                   ("confidence_scores", PList [PFloat 4606281698874543309]);
                   ("success", PBool false)]));
    reflexivity.
Defined.

(** ** POST /execute-tests *)

(** X6. With a non-empty [test_cases] entry and the executor importable,
    the executor is called once, with that entry, and its result is the
    response unchanged; an exception of the executor becomes status 500. *)
Theorem test_cases_passed_to_executor W request test_cases executor t :
  SimpleTestExecutor W = Ok executor →
  dict_lookup "test_cases" request = Some test_cases →
  py_truthy test_cases = true →
  execute_tests W request t
  = (t ++ [CallExecutor test_cases],
     match executor test_cases with
     | Ok result => Ok result
     | Raise e =>
         Raise (HTTPException 500
                  ("Test execution error: " +:+ exn_str W e))
     end).
Proof.
  intros Himport Hcases Htruthy.
  unfold execute_tests, try_except, lift, raise, call.
  unfold mbind at 1 2. unfold M_bind. rewrite Himport.
  cbn. rewrite Hcases, Htruthy. cbn.
  destruct (executor test_cases); reflexivity.
Qed.

Lemma test_cases_passed_to_executor_witness :
  execute_tests Sample.server [("test_cases", PList [PStr "login"])] []
  = ([] ++ [CallExecutor (PList [PStr "login"])],
     match (fun _ : pyval => Ok (PDict [("status", PStr "passed")]))
             (PList [PStr "login"]) with
     | Ok result => Ok result
     | Raise e =>
         Raise (HTTPException 500
                  ("Test execution error: " +:+ exn_str Sample.server e))
     end).
Proof.
  apply (test_cases_passed_to_executor Sample.server
           [("test_cases", PList [PStr "login"])] (PList [PStr "login"]));
    reflexivity.
Defined.

(** The handler, case by case. *)
Lemma execute_tests_outcome W request :
  outcome (execute_tests W request)
  = match SimpleTestExecutor W with
    | Raise import_error =>
        Raise (HTTPException 500
                 ("Test execution error: " +:+ exn_str W import_error))
    | Ok executor =>
        if py_truthy (default (PList []) (dict_lookup "test_cases" request))
        then match executor (default (PList [])
                               (dict_lookup "test_cases" request)) with
             | Ok result => Ok result
             | Raise e =>
                 Raise (HTTPException 500
                          ("Test execution error: " +:+ exn_str W e))
             end
        else Raise (HTTPException 500
                      ("Test execution error: "
                       +:+ exn_str W
                             (HTTPException 400 "test_cases required")))
    end.
Proof.
  unfold outcome, execute_tests, try_except, lift, raise, call.
  unfold mbind at 1 2. unfold M_bind.
  destruct (SimpleTestExecutor W) as [executor|import_error]; cbn;
    [|reflexivity].
  destruct (dict_lookup "test_cases" request) as [test_cases|]; cbn;
    [|reflexivity].
  destruct (py_truthy test_cases); cbn; [|reflexivity].
  destruct (executor test_cases); reflexivity.
Qed.

(** X7. Every failure of [execute_tests] reaches the client as status 500,
    with the text of its cause: the import error when the executor cannot
    be imported, the status-400 rejection when [test_cases] is missing or
    falsy, the executor's own exception otherwise.  Status 400 is never
    returned. *)
Theorem execute_tests_errors_are_500 W request e :
  outcome (execute_tests W request) = Raise e →
  ∃ cause,
    e = HTTPException 500 ("Test execution error: " +:+ exn_str W cause)
    ∧ (SimpleTestExecutor W = Raise cause
       ∨ ∃ executor,
           SimpleTestExecutor W = Ok executor
           ∧ (cause = HTTPException 400 "test_cases required"
              ∧ py_truthy (default (PList [])
                             (dict_lookup "test_cases" request)) = false
              ∨ ∃ test_cases,
                  dict_lookup "test_cases" request = Some test_cases
                  ∧ py_truthy test_cases = true
                  ∧ executor test_cases = Raise cause)).
Proof.
  rewrite execute_tests_outcome.
  destruct (SimpleTestExecutor W) as [executor|import_error].
  - destruct (dict_lookup "test_cases" request) as [test_cases|] eqn:Hcases;
      unfold default; cbn [from_option id].
    + destruct (py_truthy test_cases) eqn:Htruthy.
      * destruct (executor test_cases) as [result|cause] eqn:Hrun;
          [discriminate|].
        intros [= <-]. exists cause. split; [reflexivity|].
        right. exists executor. split; [reflexivity|].
        right. exists test_cases. auto.
      * intros [= <-]. eexists. split; [reflexivity|].
        right. exists executor. split; [reflexivity|]. left. auto.
    + cbn. intros [= <-]. eexists. split; [reflexivity|].
      right. exists executor. split; [reflexivity|]. left. auto.
  - intros [= <-]. exists import_error. auto.
Qed.

Lemma execute_tests_errors_are_500_witness :
  ∃ cause,
    HTTPException 500 "Test execution error: no browser"
    = HTTPException 500
        ("Test execution error: "
         +:+ exn_str Deployments.agent_only_server cause)
    ∧ (SimpleTestExecutor Deployments.agent_only_server = Raise cause
       ∨ ∃ executor,
           SimpleTestExecutor Deployments.agent_only_server = Ok executor
           ∧ (cause = HTTPException 400 "test_cases required"
              ∧ py_truthy
                  (default (PList [])
                     (dict_lookup "test_cases"
                        [("test_cases", PList [PStr "login"])])) = false
              ∨ ∃ test_cases,
                  dict_lookup "test_cases"
                    [("test_cases", PList [PStr "login"])] = Some test_cases
                  ∧ py_truthy test_cases = true
                  ∧ executor test_cases = Raise cause)).
Proof.
  apply (execute_tests_errors_are_500 Deployments.agent_only_server
           [("test_cases", PList [PStr "login"])]).
  reflexivity.
Defined.

(** The handler, case by case. *)
Lemma execute_tests_eq W request t :
  execute_tests W request t
  = match SimpleTestExecutor W with
    | Raise import_error =>
        (t, Raise (HTTPException 500
                     ("Test execution error: " +:+ exn_str W import_error)))
    | Ok executor =>
        match dict_lookup "test_cases" request with
        | Some test_cases =>
            if py_truthy test_cases
            then (t ++ [CallExecutor test_cases],
                  match executor test_cases with
                  | Ok result => Ok result
                  | Raise e =>
                      Raise (HTTPException 500
                               ("Test execution error: " +:+ exn_str W e))
                  end)
            else (t, Raise (HTTPException 500
                              ("Test execution error: "
                               +:+ exn_str W
                                     (HTTPException 400 "test_cases required"))))
        | None =>
            (t, Raise (HTTPException 500
                         ("Test execution error: "
                          +:+ exn_str W
                                (HTTPException 400 "test_cases required"))))
        end
    end.
Proof.
  unfold execute_tests, try_except, lift, raise, call.
  unfold mbind at 1 2. unfold M_bind.
  destruct (SimpleTestExecutor W) as [executor|import_error]; cbn;
    [|reflexivity].
  destruct (dict_lookup "test_cases" request) as [test_cases|]; cbn;
    [|reflexivity].
  destruct (py_truthy test_cases); cbn; [|reflexivity].
  destruct (executor test_cases); reflexivity.
Qed.

(** X8. The executor is called at most once per request, and only with the
    request's own [test_cases] entry when that entry is truthy. *)
Theorem executor_called_with_truthy_cases W request :
  calls (execute_tests W request) = []
  ∨ ∃ test_cases,
      calls (execute_tests W request) = [CallExecutor test_cases]
      ∧ dict_lookup "test_cases" request = Some test_cases
      ∧ py_truthy test_cases = true.
Proof.
  unfold calls. rewrite execute_tests_eq.
  destruct (SimpleTestExecutor W) as [executor|import_error]; [|auto].
  destruct (dict_lookup "test_cases" request) as [test_cases|]; [|auto].
  destruct (py_truthy test_cases) eqn:Htruthy; [|auto].
  right. exists test_cases. auto.
Qed.

(** X9. A [test_cases] entry that is present but falsy (null, false, 0, the
    empty string, the empty object) is rejected like the empty list: status
    500 and no call to the executor. *)
Theorem falsy_test_cases_rejected W request test_cases t :
  dict_lookup "test_cases" request = Some test_cases →
  py_truthy test_cases = false →
  ∃ cause,
    execute_tests W request t
    = (t, Raise (HTTPException 500
                   ("Test execution error: " +:+ exn_str W cause))).
Proof.
  intros Hcases Hfalsy.
  unfold execute_tests, try_except, lift, raise, call.
  unfold mbind at 1 2. unfold M_bind.
  destruct (SimpleTestExecutor W) as [executor|import_error]; cbn.
  - rewrite Hcases, Hfalsy. cbn. eauto.
  - eauto.
Qed.

Lemma falsy_test_cases_rejected_witness :
  ∃ cause,
    execute_tests Sample.server [("test_cases", PNone)] []
    = ([], Raise (HTTPException 500
                    ("Test execution error: "
                     +:+ exn_str Sample.server cause))).
Proof.
  apply (falsy_test_cases_rejected Sample.server
           [("test_cases", PNone)] PNone); reflexivity.
Defined.

(** ** POST /generate-test-scenarios *)

(** The handler as one computation after its single call. *)
Lemma generate_test_scenarios_eq W request t :
  generate_test_scenarios W request t
  = (t ++ [CallAnalyzeHtml (html_content request)],
     match
       analysis ← analyze_html_structure W (html_content request);
       elements ← interactive_elements analysis;
       scenarios ← scenario_loop W elements [];
       Ok (scenario_report scenarios)
     with
     | Ok report => Ok report
     | Raise e =>
         Raise (HTTPException 500
                  ("Test scenario generation error: " +:+ exn_str W e))
     end).
Proof.
  destruct (analyze_html_structure W (html_content request))
    as [analysis|e] eqn:Hana.
  - destruct (interactive_elements analysis) as [elements|e] eqn:Hels.
    + rewrite (generate_test_scenarios_run W request t analysis elements Hana Hels).
      cbn. rewrite Hels. cbn.
      destruct (scenario_loop W elements []); reflexivity.
    + unfold generate_test_scenarios, try_except, call, lift, raise.
      unfold mbind at 1. unfold M_bind. rewrite Hana. cbn. rewrite Hels.
      reflexivity.
  - destruct (analysis_error_reported W request e t Hana) as [_ ->].
    reflexivity.
Qed.

(** X10. Splitting the list of elements splits the loop: the scenarios for
    a concatenation are those of the first part, extended by the loop over
    the second part started from them. *)
Theorem scenario_loop_app W before after :
  ∀ scenarios,
    scenario_loop W (before ++ after) scenarios
    = (emitted ← scenario_loop W before scenarios;
       scenario_loop W after emitted).
Proof.
  induction before as [|element rest IH]; intros scenarios; [reflexivity|].
  cbn [app scenario_loop].
  destruct (py_subscript element "tag") as [tag|e]; cbn [mbind result_bind];
    [|reflexivity].
  destruct (py_in_strs tag scenario_tags); [|apply IH].
  destruct (make_scenario W scenarios element) as [scenario|e];
    cbn [mbind result_bind]; [apply IH | reflexivity].
Qed.

(** X11. Elements whose tag is not button, input or a leave no trace in
    the result: dropping them from the analysis gives the same scenarios,
    with the same numbering. *)
Theorem skipped_elements_leave_no_trace W elements scenarios :
  forallb has_tag elements = true →
  scenario_loop W elements scenarios
  = scenario_loop W (List.filter yields_scenario elements) scenarios.
Proof.
  revert scenarios.
  induction elements as [|element rest IH]; intros scenarios Htags;
    [reflexivity|].
  cbn [forallb] in Htags. apply andb_true_iff in Htags as [Htag Hrest].
  destruct (has_tag_inv _ Htag) as (entries & tag & -> & Hlook).
  cbn [List.filter].
  pose proof (py_in_strs_scenario_tags (PDict entries) tag Hlook) as Hin.
  cbn [scenario_loop py_subscript]. rewrite Hlook. cbn [mbind result_bind].
  rewrite Hin.
  destruct (yields_scenario (PDict entries)) eqn:Hyields.
  - cbn [scenario_loop py_subscript]. rewrite Hlook.
    cbn [mbind result_bind]. rewrite Hin.
    destruct (make_scenario W scenarios (PDict entries)) as [scenario|e];
      cbn [mbind result_bind]; [apply IH; exact Hrest | reflexivity].
  - apply IH. exact Hrest.
Qed.

Lemma skipped_elements_leave_no_trace_witness :
  scenario_loop Sample.server
    [Sample.submit_button; Sample.search_box;
     Sample.country_select; Sample.home_link] []
  = scenario_loop Sample.server
      (List.filter yields_scenario
         [Sample.submit_button; Sample.search_box;
          Sample.country_select; Sample.home_link]) [].
Proof.
  apply (skipped_elements_leave_no_trace Sample.server
           [Sample.submit_button; Sample.search_box;
            Sample.country_select; Sample.home_link] []).
  reflexivity.
Defined.

(** The loop stops at the first element without a tag. *)
Lemma scenario_loop_untagged W before element after :
  ∀ scenarios,
    forallb has_tag before = true →
    has_tag element = false →
    scenario_loop W (before ++ element :: after) scenarios
    = Raise (untagged_error element).
Proof.
  induction before as [|head rest IH]; intros scenarios Htags Hnone.
  - cbn [app scenario_loop].
    unfold has_tag, element_tag in Hnone.
    destruct element as [| | | | | |entries]; try reflexivity.
    cbn [py_subscript untagged_error].
    destruct (dict_lookup "tag" entries); [discriminate|reflexivity].
  - cbn [forallb] in Htags. apply andb_true_iff in Htags as [Htag Hrest].
    destruct (has_tag_inv _ Htag) as (entries & tag & -> & Hlook).
    cbn [app scenario_loop py_subscript]. rewrite Hlook.
    cbn [mbind result_bind].
    destruct (py_in_strs tag scenario_tags); [|apply IH; assumption].
    pose proof (make_scenario_eq W scenarios entries tag Hlook) as Hmake.
    cbn zeta in Hmake. rewrite Hmake. cbn [mbind result_bind].
    apply IH; assumption.
Qed.

Lemma scenario_loop_Ok_tagged W elements :
  ∀ scenarios report,
    scenario_loop W elements scenarios = Ok report →
    forallb has_tag elements = true.
Proof.
  induction elements as [|element rest IH]; intros scenarios report Hrun;
    [reflexivity|].
  cbn [scenario_loop] in Hrun. cbn [forallb].
  destruct element as [| | | | | |entries]; try discriminate.
  cbn [py_subscript] in Hrun. unfold has_tag at 1, element_tag.
  destruct (dict_lookup "tag" entries) as [tag|]; [|discriminate].
  cbn [mbind result_bind] in Hrun. cbn [andb].
  destruct (py_in_strs tag scenario_tags); [|eauto].
  destruct (make_scenario W scenarios (PDict entries)) as [scenario|e];
    cbn [mbind result_bind] in Hrun; [eauto|discriminate].
Qed.

(** X12. One element without a tag fails the whole request: whatever came
    before it, and whether or not it would have produced a scenario, the
    answer is status 500 naming the lookup that failed, not a shorter list. *)
Theorem untagged_element_fails_request
  W request analysis before element after t :
  analyze_html_structure W (html_content request) = Ok analysis →
  interactive_elements analysis = Ok (before ++ element :: after) →
  forallb has_tag before = true →
  has_tag element = false →
  generate_test_scenarios W request t
  = (t ++ [CallAnalyzeHtml (html_content request)],
     Raise (HTTPException 500
              ("Test scenario generation error: "
               +:+ exn_str W (untagged_error element)))).
Proof.
  intros Hana Hels Htags Hnone.
  rewrite (generate_test_scenarios_run W request t analysis _ Hana Hels).
  rewrite (scenario_loop_untagged W before element after [] Htags Hnone).
  reflexivity.
Qed.

Lemma untagged_element_fails_request_witness :
  generate_test_scenarios Deployments.agent_only_server
    (Sample.request_for Sample.page "Submit") []
  = ([] ++ [CallAnalyzeHtml Sample.page],
     Raise (HTTPException 500
              ("Test scenario generation error: "
               +:+ exn_str Deployments.agent_only_server
                     (untagged_error (PDict [("text", PStr "untagged")]))))).
Proof.
  apply (untagged_element_fails_request Deployments.agent_only_server
           (Sample.request_for Sample.page "Submit")
           (PDict [("interactive_elements",
                    PList [Sample.submit_button;
                           PDict [("text", PStr "untagged")];
                           Sample.home_link])])
           [Sample.submit_button] (PDict [("text", PStr "untagged")])
           [Sample.home_link] []); reflexivity.
Defined.

(** X13. Success tells about the analysis: when the handler answers with a
    report, every interactive element of the analysis had a tag, the report
    lists exactly as many scenarios as the analysis has elements tagged
    button, input or a, its total is that number, and it never lists more
    scenarios than the analysis has interactive elements. *)
Theorem successful_report_consistent W request report :
  outcome (generate_test_scenarios W request) = Ok report →
  ∃ analysis elements scenarios,
    analyze_html_structure W (html_content request) = Ok analysis
    ∧ interactive_elements analysis = Ok elements
    ∧ forallb has_tag elements = true
    ∧ field "scenarios" report = Some (PList scenarios)
    ∧ length scenarios = length (List.filter yields_scenario elements)
    ∧ field "total_scenarios" report
      = Some (PInt (Z.of_nat
                      (length (List.filter yields_scenario elements))))
    ∧ (length scenarios ≤ length elements)%nat.
Proof.
  unfold outcome. rewrite generate_test_scenarios_eq. cbn [snd].
  destruct (analyze_html_structure W (html_content request))
    as [analysis|e] eqn:Hana; cbn [mbind result_bind]; [|discriminate].
  destruct (interactive_elements analysis) as [elements|e] eqn:Hels;
    cbn [mbind result_bind]; [|discriminate].
  destruct (scenario_loop W elements []) as [scenarios|e] eqn:Hrun;
    cbn [mbind result_bind]; [|discriminate].
  intros [= <-]. exists analysis, elements, scenarios.
  pose proof (scenario_loop_Ok_tagged W elements [] scenarios Hrun) as Htags.
  destruct (scenario_loop_spec W elements [] Htags)
    as (emitted & Hrun' & Hlen & _).
  rewrite Hrun in Hrun'. cbn [app] in Hrun'. injection Hrun' as <-.
  split; [reflexivity|]. split; [exact Hels|]. split; [exact Htags|].
  split; [reflexivity|]. split; [exact Hlen|].
  split; [cbn; rewrite Hlen; reflexivity|].
  rewrite Hlen. apply filter_length_le.
Qed.

Lemma successful_report_consistent_witness :
  ∃ analysis elements scenarios,
    analyze_html_structure Sample.server
      (html_content (Sample.request_for Sample.page "Submit")) = Ok analysis
    ∧ interactive_elements analysis = Ok elements
    ∧ forallb has_tag elements = true
    ∧ field "scenarios" Deployments.sample_report = Some (PList scenarios)
    ∧ length scenarios = length (List.filter yields_scenario elements)
    ∧ field "total_scenarios" Deployments.sample_report
      = Some (PInt (Z.of_nat
                      (length (List.filter yields_scenario elements))))
    ∧ (length scenarios ≤ length elements)%nat.
Proof.
  apply (successful_report_consistent Sample.server
           (Sample.request_for Sample.page "Submit")
           Deployments.sample_report).
  reflexivity.
Defined.

(** X14. An analysis without an [interactive_elements] entry is not an
    error: the handler reports success with no scenario and total 0. *)
Theorem missing_elements_entry_is_empty_success W request entries t :
  analyze_html_structure W (html_content request) = Ok (PDict entries) →
  dict_lookup "interactive_elements" entries = None →
  generate_test_scenarios W request t
  = (t ++ [CallAnalyzeHtml (html_content request)],
     Ok (PDict [("success", PBool true);
                ("scenarios", PList []);
                ("total_scenarios", PInt 0)])).
Proof.
  intros Hana Hnone.
  rewrite (generate_test_scenarios_run W request t (PDict entries) [] Hana).
  - reflexivity.
  - unfold interactive_elements. cbn. rewrite Hnone. reflexivity.
Qed.

Lemma missing_elements_entry_is_empty_success_witness :
  generate_test_scenarios Deployments.terse_server
    (Sample.request_for Sample.page "Home") []
  = ([] ++ [CallAnalyzeHtml Sample.page],
     Ok (PDict [("success", PBool true);
                ("scenarios", PList []);
                ("total_scenarios", PInt 0)])).
Proof.
  apply (missing_elements_entry_is_empty_success Deployments.terse_server
           (Sample.request_for Sample.page "Home")
           [("form_elements", PList [])]); reflexivity.
Defined.



(** ** The two analysis handlers together *)

Lemma analyze_html_eq W request t :
  analyze_html W request t
  = (t ++ [CallAnalyzeHtml (html_content request)],
     match analyze_html_structure W (html_content request) with
     | Ok analysis =>
         Ok (PDict [("success", PBool true); ("analysis", analysis)])
     | Raise e =>
         Raise (HTTPException 500 ("HTML analysis error: " +:+ exn_str W e))
     end).
Proof.
  destruct (analyze_html_structure W (html_content request))
    as [analysis|e] eqn:Hana.
  - apply (analysis_reported_as_is W request analysis t Hana).
  - apply (analysis_error_reported W request e t Hana).
Qed.

(** The loop reads the environment only to render values that are not
    strings. *)
Lemma scenario_loop_agent W a elements :
  ∀ scenarios,
    scenario_loop (with_agent W a) elements scenarios
    = scenario_loop W elements scenarios.
Proof.
  induction elements as [|element rest IH]; intros scenarios; [reflexivity|].
  cbn [scenario_loop].
  destruct (py_subscript element "tag") as [tag|e]; cbn [mbind result_bind];
    [|reflexivity].
  destruct (py_in_strs tag scenario_tags); [|apply IH].
  change (make_scenario (with_agent W a) scenarios element)
    with (make_scenario W scenarios element).
  destruct (make_scenario W scenarios element); cbn [mbind result_bind];
    [apply IH | reflexivity].
Qed.

(** X16. [analyze_html] and [generate_test_scenarios] read nothing of the
    request but [html_content], make one call, to the analyser, and answer
    the same with or without an agent. *)
Theorem analysis_reads_page_only W a request other t :
  html_content request = html_content other →
  analyze_html (with_agent W a) request t = analyze_html W other t
  ∧ generate_test_scenarios (with_agent W a) request t
    = generate_test_scenarios W other t
  ∧ calls (analyze_html W request)
    = [CallAnalyzeHtml (html_content request)]
  ∧ calls (generate_test_scenarios W request)
    = [CallAnalyzeHtml (html_content request)].
Proof.
  intros Hpage. unfold calls.
  rewrite !analyze_html_eq, !generate_test_scenarios_eq, Hpage.
  change (analyze_html_structure (with_agent W a) (html_content other))
    with (analyze_html_structure W (html_content other)).
  change (exn_str (with_agent W a)) with (exn_str W).
  split; [reflexivity|]. split; [|split; reflexivity].
  f_equal.
  destruct (analyze_html_structure W (html_content other)) as [analysis|e];
    cbn [mbind result_bind]; [|reflexivity].
  destruct (interactive_elements analysis) as [elements|e];
    cbn [mbind result_bind]; [|reflexivity].
  rewrite scenario_loop_agent. reflexivity.
Qed.

Lemma analysis_reads_page_only_witness :
  analyze_html (with_agent Sample.server None)
    (Sample.request_for Sample.page "Submit") []
  = analyze_html Sample.server (Sample.request_for Sample.page "Cancel") []
  ∧ generate_test_scenarios (with_agent Sample.server None)
      (Sample.request_for Sample.page "Submit") []
    = generate_test_scenarios Sample.server
        (Sample.request_for Sample.page "Cancel") []
  ∧ calls (analyze_html Sample.server
             (Sample.request_for Sample.page "Submit"))
    = [CallAnalyzeHtml
         (html_content (Sample.request_for Sample.page "Submit"))]
  ∧ calls (generate_test_scenarios Sample.server
             (Sample.request_for Sample.page "Submit"))
    = [CallAnalyzeHtml
         (html_content (Sample.request_for Sample.page "Submit"))].
Proof.
  apply (analysis_reads_page_only Sample.server None
           (Sample.request_for Sample.page "Submit")
           (Sample.request_for Sample.page "Cancel") []).
  reflexivity.
Defined.

(** X17. A page on which [analyze_html] fails makes
    [generate_test_scenarios] fail too, with status 500 and the same cause;
    the only error [analyze_html] reports is the analyser's. *)
Theorem analysis_failure_is_shared W request e :
  outcome (analyze_html W request) = Raise e →
  ∃ cause,
    analyze_html_structure W (html_content request) = Raise cause
    ∧ e = HTTPException 500 ("HTML analysis error: " +:+ exn_str W cause)
    ∧ outcome (generate_test_scenarios W request)
      = Raise (HTTPException 500
                 ("Test scenario generation error: " +:+ exn_str W cause)).
Proof.
  unfold outcome. rewrite analyze_html_eq, generate_test_scenarios_eq.
  cbn [snd].
  destruct (analyze_html_structure W (html_content request))
    as [analysis|cause]; [discriminate|].
  intros [= <-]. exists cause. repeat split.
Qed.

Lemma analysis_failure_is_shared_witness :
  ∃ cause,
    analyze_html_structure Sample.server
      (html_content (Sample.request_for "" "Submit")) = Raise cause
    ∧ HTTPException 500
        "HTML analysis error: input is not interpretable as HTML"
      = HTTPException 500
          ("HTML analysis error: " +:+ exn_str Sample.server cause)
    ∧ outcome (generate_test_scenarios Sample.server
                 (Sample.request_for "" "Submit"))
      = Raise (HTTPException 500
                 ("Test scenario generation error: "
                  +:+ exn_str Sample.server cause)).
Proof.
  apply (analysis_failure_is_shared Sample.server
           (Sample.request_for "" "Submit")).
  reflexivity.
Defined.

(** ** GET /health after start-up *)

(** X18. On a server that starts with no agent, as the module initialises
    it, the health report after [lifespan] says ready exactly when
    [XPathAgent()] returned an agent and fallback mode exactly when it
    raised, whatever the message; in fallback mode no request to
    [generate_xpath] reaches an agent. *)
Theorem health_after_startup W XPathAgent_new :
  xpath_agent W = None →
  (component "xpath_agent" (health_check (lifespan W XPathAgent_new))
   = Some (PStr "✅ ready")
   ↔ ∃ agent, XPathAgent_new = Ok agent)
  ∧ (component "xpath_agent" (health_check (lifespan W XPathAgent_new))
     = Some (PStr "⚠️ fallback mode")
     ↔ ∃ e, XPathAgent_new = Raise e)
  ∧ ∀ request,
      component "xpath_agent" (health_check (lifespan W XPathAgent_new))
      = Some (PStr "⚠️ fallback mode") →
      agent_invoked
        (calls (generate_xpath (lifespan W XPathAgent_new) request)) = false.
Proof.
  intros Hinit.
  assert (∀ e, xpath_agent (lifespan W (Raise e)) = None) as Hfailed.
  { intros e. unfold lifespan.
    destruct (py_contains "OPENAI_API_KEY" (exn_str W e));
      [reflexivity | exact Hinit]. }
  split; [|split].
  - destruct XPathAgent_new as [agent|e].
    + cbn. split; eauto.
    + unfold component, health_check. rewrite Hfailed. cbn.
      split; [discriminate | intros [agent ?]; discriminate].
  - destruct XPathAgent_new as [agent|e].
    + cbn. split; [discriminate | intros [e ?]; discriminate].
    + unfold component, health_check. rewrite Hfailed. cbn. split; eauto.
  - intros request.
    destruct XPathAgent_new as [agent|e]; [cbn; discriminate|].
    intros _. unfold calls.
    rewrite generate_xpath_eq. cbn [app].
    destruct (deterministic_outcome _ request) as [response|cause].
    + cbn [fst]. apply generator_calls_no_agent.
    + rewrite fallback_eq, Hfailed.
      cbn [fst]. apply generator_calls_no_agent.
Qed.

Lemma health_after_startup_witness :
  (component "xpath_agent"
     (health_check (lifespan Deployments.terse_server Deployments.failed_start))
   = Some (PStr "✅ ready")
   ↔ ∃ agent, Deployments.failed_start = Ok agent)
  ∧ (component "xpath_agent"
       (health_check
          (lifespan Deployments.terse_server Deployments.failed_start))
     = Some (PStr "⚠️ fallback mode")
     ↔ ∃ e, Deployments.failed_start = Raise e)
  ∧ ∀ request,
      component "xpath_agent"
        (health_check
           (lifespan Deployments.terse_server Deployments.failed_start))
      = Some (PStr "⚠️ fallback mode") →
      agent_invoked
        (calls (generate_xpath
                  (lifespan Deployments.terse_server Deployments.failed_start)
                  request)) = false.
Proof.
  apply (health_after_startup Deployments.terse_server
           Deployments.failed_start).
  reflexivity.
Defined.

(** A failed restart whose message does not name the API key leaves a
    configured agent in place: the health report stays ready. *)
Lemma restart_keeps_agent W agent e :
  xpath_agent W = Some agent →
  py_contains "OPENAI_API_KEY" (exn_str W e) = false →
  lifespan W (Raise e) = W
  ∧ component "xpath_agent" (health_check (lifespan W (Raise e)))
    = Some (PStr "✅ ready").
Proof.
  intros Hagent Hkey. unfold lifespan. rewrite Hkey.
  split; [reflexivity|].
  unfold component, health_check. rewrite Hagent. reflexivity.
Qed.
